(** * fluxnetCDF: FLUXNET2015 station tables to annotated datasets

    A shallow embedding of [fluxnetCDF.py].  Python values are modelled as
    follows.

    - [str] is [string]; only one-byte characters occur (FLUXNET headers,
      site codes and file names are ASCII), so [isdigit] is the test for
      the characters '0' to '9'.
    - An exception is a constructor of [exn]; a computation that may raise
      returns [result A] = [exn + A], and code that also talks to the file
      system runs in [IO], which threads the log of file-system events.
    - A pandas table read from one of the reference CSV files is the list
      of its rows, in file order, with the default [RangeIndex]: the index
      label of a row is its position.  The files have the columns the
      program reads.  A cell of the legend is either missing ([NaN]) or a
      text; the names in [variable_groups.csv] and [output_variables.csv]
      are texts and the flags are integers.
    - What the libraries do outside the fragment the program relies on is a
      field of the class [Runtime]: the scalar type of station tables with
      its [str], the outcome of [np.isnan] on a text, [re.compile] with the
      test [match] of the compiled pattern, and [pd.to_datetime].  Every
      theorem holds for all instances; [numpy_runtime] is the instance used
      to evaluate the program on concrete inputs. *)

From Stdlib Require Import Floats ZArith Ascii String DecimalString.
From stdpp Require Import base decidable option list strings.

Local Open Scope string_scope.
Local Open Scope list_scope.
Local Open Scope Z_scope.

(** ** Exceptions *)

Module Py.

(** The built-in exception classes that statements of the program, or the
    libraries it calls, can raise. *)
Inductive builtin_exn : Type :=
  | IndexError
  | KeyError
  | ValueError
  | TypeError
  | UnboundLocalError
  | OSError
  | FileExistsError
  | ReError.

(** All exceptions: the [Error] subclasses the program defines, each with
    the attribute its constructor stores, and the built-in ones.  A library
    call raises built-in exceptions only. *)
Inductive exn : Type :=
  | TemporalResolutionError (temporal_agg : string)
  | SetTypeError (settype : string)
  | SiteCodeError (sitecode : string)
  | Builtin (e : builtin_exn).

Coercion Builtin : builtin_exn >-> exn.

Definition result (A : Type) : Type := exn + A.

Definition lib_result (A : Type) : Type := builtin_exn + A.

Definition raise {A : Type} (e : exn) : result A := inl e.

(** The outcome of a library call, seen from the program. *)
Definition lift {A : Type} (m : lib_result A) : result A :=
  match m with
  | inl e => inl (Builtin e)
  | inr x => inr x
  end.

#[export] Instance builtin_exn_eq_dec : EqDecision builtin_exn.
Proof. solve_decision. Defined.

#[export] Instance exn_eq_dec : EqDecision exn.
Proof. solve_decision. Defined.

#[export] Instance result_ret : MRet result := fun _ x => inr x.

#[export] Instance result_bind : MBind result := fun _ _ k m =>
  match m with
  | inl e => inl e
  | inr x => k x
  end.

(** [try: m except e: h] for a handler that catches exactly the class [e]. *)
Definition try_except {A : Type} (m : result A) (e : exn) (h : result A)
  : result A :=
  match m with
  | inl e' => if decide (e' = e) then h else inl e'
  | inr x => inr x
  end.

(** ** Sequences *)

(** [l[i]] for a possibly negative index. *)
Definition getitem {A : Type} (l : list A) (i : Z) : result A :=
  let n := Z.of_nat (length l) in
  if decide (0 <= i < n) then
    match l !! Z.to_nat i with Some x => mret x | None => raise IndexError end
  else if decide (- n <= i < 0) then
    match l !! Z.to_nat (n + i) with Some x => mret x | None => raise IndexError end
  else raise IndexError.

(** [x in l] for a list or an array. *)
Definition contains_item `{EqDecision A} (x : A) (l : list A) : bool :=
  bool_decide (x ∈ l).

(** ** Strings *)

Definition is_digit (c : ascii) : bool :=
  (48 <=? Z.of_nat (nat_of_ascii c)) && (Z.of_nat (nat_of_ascii c) <=? 57).

(** [s.isdigit()]: at least one character, and all of them digits. *)
Fixpoint all_digits (s : string) : bool :=
  match s with
  | EmptyString => true
  | String c s' => is_digit c && all_digits s'
  end.

Definition isdigit (s : string) : bool :=
  match s with
  | EmptyString => false
  | _ => all_digits s
  end.

(** [s.split(sep)] for a one-character separator. *)
Fixpoint split (sep : ascii) (s : string) : list string :=
  match s with
  | EmptyString => [EmptyString]
  | String c s' =>
      if decide (c = sep) then EmptyString :: split sep s'
      else match split sep s' with
           | [] => [String c EmptyString]
           | t :: ts => String c t :: ts
           end
  end.

(** [s[:k]]. *)
Fixpoint str_take (n : nat) (s : string) : string :=
  match n, s with
  | S n', String c s' => String c (str_take n' s')
  | _, _ => EmptyString
  end.

Definition slice_until (s : string) (k : Z) : string :=
  let n := Z.of_nat (String.length s) in
  if decide (0 <= k) then str_take (Z.to_nat k) s
  else str_take (Z.to_nat (n + k)) s.

(** [sub in s]. *)
Fixpoint str_contains (sub s : string) : bool :=
  String.prefix sub s ||
  match s with
  | EmptyString => false
  | String _ s' => str_contains sub s'
  end.

(** [s.replace(c, r)] for a one-character [c]. *)
Fixpoint replace_char (c : ascii) (r : string) (s : string) : string :=
  match s with
  | EmptyString => EmptyString
  | String a s' =>
      if decide (a = c) then r +:+ replace_char c r s'
      else String a (replace_char c r s')
  end.

End Py.

Import Py.

(** ** Library behaviour left open *)

Class Runtime : Type := {
  (** the scalars held by the cells of a station table *)
  value : Type;
  (** [str(x)] *)
  py_str : value -> string;
  (** [np.isnan(s)] for a text [s] *)
  np_isnan_text : string -> lib_result bool;
  (** [re.compile(p)], as the test [fun s => p.match(s) is not None] *)
  re_compile : string -> lib_result (string -> bool);
  (** [pd.to_datetime(column, format=f)] *)
  pd_to_datetime : list value -> string -> lib_result (list value);
}.

(** ** Reference tables *)

(** A cell of an object column: missing, or a text. *)
Inductive cell : Type :=
  | NaN
  | Text (s : string).

#[export] Instance cell_eq_dec : EqDecision cell.
Proof. solve_decision. Defined.

(** [doc/variable_codes_FULLSET_20200504.csv], the variable legend, with
    its columns [Variable], [Description] and [Units]. *)
Record legend_row : Type := {
  col_Variable : cell;
  col_Description : cell;
  col_Units : cell;
}.

(** [doc/site_info.csv], indexed by its column [site]. *)
Record site_row `{Runtime} : Type := {
  si_site : string;
  si_lat : value;
  si_lon : value;
  si_elev : value;
  si_country : value;
  si_pft : value;
}.

(** [doc/variable_groups.csv] *)
Record group_row : Type := {
  vg_Variable : string;
  vg_Group : string;
}.

(** [output_variables.csv] *)
Record flag_row : Type := {
  ov_GROUP : string;
  ov_FLAG : Z;
}.

(** A table with its index labels. *)
Fixpoint enumerate {A : Type} (i : nat) (l : list A) : list (nat * A) :=
  match l with
  | [] => []
  | x :: l' => (i, x) :: enumerate (S i) l'
  end.

Module Legend.

(** [legend[legend['Variable'] == v]]: the rows whose [Variable] is the
    text [v], each with its index label. *)
Definition where_Variable (legend : list legend_row) (v : string)
  : list (nat * legend_row) :=
  filter (fun ir => col_Variable ir.2 = Text v) (enumerate 0 legend).

(** [frame.index] *)
Definition index (frame : list (nat * legend_row)) : list nat := frame.*1.

(** [legend.iloc[positions]] *)
Definition iloc (legend : list legend_row) (positions : list nat)
  : result (list legend_row) :=
  mapM (M := result)
    (fun i => match legend !! i with
              | Some r => mret r
              | None => raise IndexError
              end)
    positions.

(** [legend.iloc[a:b]]: a slice is clipped to the table. *)
Definition iloc_slice (legend : list legend_row) (a b : nat) : list legend_row :=
  take (b - a) (drop a legend).

(** [series.values[0]] *)
Definition values0 {A : Type} (values : list A) : result A := getitem values 0.

(** [variable in legend['Variable'].values] *)
Definition has_Variable (legend : list legend_row) (variable : string) : bool :=
  contains_item (Text variable) (col_Variable <$> legend).

End Legend.

(** [np.isnan(c)] for a cell of the legend. *)
Definition np_isnan `{Runtime} (c : cell) : result bool :=
  match c with
  | NaN => mret true
  | Text s => lift (np_isnan_text s)
  end.

(** ** Tables and datasets *)

(** The first value stored under a key of an ordered dictionary. *)
Fixpoint assoc {V : Type} (k : string) (d : list (string * V)) : option V :=
  match d with
  | [] => None
  | (k', x) :: d' => if decide (k' = k) then Some x else assoc k d'
  end.

Section Data.
Context `{Runtime}.

(** A station table: [index] is [None] for the default [RangeIndex], and
    the named index column after [set_index]. *)
Record DataFrame : Type := {
  df_index : option (string * list value);
  df_columns : list (string * list value);
}.

(** [df.columns] *)
Definition columns (df : DataFrame) : list string := (df_columns df).*1.

Inductive attr_value : Type :=
  | ACell (c : cell)
  | AFloat (x : float)
  | ABool (b : bool)
  | AValue (x : value).

(** An attribute dictionary, in insertion order. *)
Definition attrs_dict : Type := list (string * attr_value).

(** [d[k]], when the key is present. *)
Definition dict_get (d : attrs_dict) (k : string) : option attr_value :=
  assoc k d.

Inductive payload : Type :=
  | Column (xs : list value)
  | Scalar (x : value).

Record DataArray : Type := {
  da_data : payload;
  da_attrs : attrs_dict;
}.

Record Dataset : Type := {
  ds_time : list value;
  ds_time_attrs : attrs_dict;
  ds_data_vars : list (string * DataArray);
  ds_attrs : attrs_dict;
}.

(** [ds[name]] *)
Definition ds_get (ds : Dataset) (name : string) : option DataArray :=
  assoc name (ds_data_vars ds).

(** [df.to_xarray()]: one data variable per column, over the index. *)
Definition to_xarray (df : DataFrame) : Dataset :=
  {| ds_time := match df_index df with Some (_, t) => t | None => [] end;
     ds_time_attrs := [];
     ds_data_vars :=
       (fun c => (c.1, {| da_data := Column c.2; da_attrs := [] |}))
         <$> df_columns df;
     ds_attrs := [] |}.

(** [ds[name].attrs = a] *)
Definition set_attrs (ds : Dataset) (name : string) (a : attrs_dict) : Dataset :=
  {| ds_time := ds_time ds;
     ds_time_attrs := ds_time_attrs ds;
     ds_data_vars :=
       (fun kv => if decide (kv.1 = name)
                  then (kv.1, {| da_data := da_data kv.2; da_attrs := a |})
                  else kv) <$> ds_data_vars ds;
     ds_attrs := ds_attrs ds |}.

(** [ds[name] = x] for a scalar [x]: a variable of that name is replaced,
    otherwise the new one comes last. *)
Definition setitem (ds : Dataset) (name : string) (x : value) : Dataset :=
  let fresh := {| da_data := Scalar x; da_attrs := [] |} in
  {| ds_time := ds_time ds;
     ds_time_attrs := ds_time_attrs ds;
     ds_data_vars :=
       if bool_decide (name ∈ (ds_data_vars ds).*1)
       then (fun kv => if decide (kv.1 = name) then (kv.1, fresh) else kv)
              <$> ds_data_vars ds
       else ds_data_vars ds ++ [(name, fresh)];
     ds_attrs := ds_attrs ds |}.

(** ** The variable-attribute loop of [flux2netcdf] *)

(** The local variables that live across iterations: [v] is unbound
    ([None]) until an iteration assigns it, and keeps its value afterwards. *)
Record locals : Type := {
  loc_v : option string;
  loc_ds : Dataset;
}.

(** Reading a local variable. *)
Definition local {A : Type} (x : option A) : result A :=
  match x with
  | Some a => mret a
  | None => raise UnboundLocalError
  end.

(** Lines 151-155: the [if]/[elif] that assigns [v], with no [else]. *)
Definition assign_v (legend : list legend_row) (variable : string)
    (v : option string) : result (option string) :=
  if Legend.has_Variable legend variable then mret (Some variable)
  else
    t ← getitem (split "_" variable) (-2);
    if bool_decide (t = "CUT") then
      d ← getitem (split "_" variable) (-1);
      if isdigit d then mret (Some (slice_until variable (-2) +:+ "XX"))
      else mret v
    else mret v.

(** Lines 158-159: the rows at positions [index[0] + 1] to [index[0] + 3]. *)
Definition unit_block (legend : list legend_row) (v : string)
  : result (list legend_row) :=
  a ← getitem (Legend.index (Legend.where_Variable legend v)) 0;
  b ← getitem (Legend.index (Legend.where_Variable legend v)) 0;
  mret (Legend.iloc_slice legend (a + 1) (b + 4)).

(** Lines 157-166: the unit of the canonical variable [v]. *)
Definition resolve_unit (legend : list legend_row) (v : string)
    (temporal_agg : string) : result cell :=
  rows ← Legend.iloc legend (Legend.index (Legend.where_Variable legend v));
  u ← Legend.values0 (col_Units <$> rows);
  missing ← np_isnan u;
  if (missing : bool) then
    block ← unit_block legend v;
    try_except
      (Legend.values0
         (col_Units <$> filter (fun r => col_Variable r = Text temporal_agg) block))
      IndexError
      (mret (Text ""))
  else
    rows ← Legend.iloc legend (Legend.index (Legend.where_Variable legend v));
    Legend.values0 (col_Units <$> rows).

(** Line 168: [legend[legend['Variable'] == v].Description.values[0]]. *)
Definition description (legend : list legend_row) (v : string) : result cell :=
  Legend.values0 (col_Description <$> (Legend.where_Variable legend v).*2).

Definition fill_value : float := (-9999.0)%float.

(** Lines 157-171: the attributes of a variable whose canonical name is [v]. *)
Definition variable_attrs (legend : list legend_row) (temporal_agg : string)
    (v : string) : result attrs_dict :=
  unit ← resolve_unit legend v temporal_agg;
  long_name ← description legend v;
  mret [("long_name", ACell long_name);
        ("units", ACell unit);
        ("_FillValue", AFloat fill_value)].

(** Lines 151-171: one iteration of the loop. *)
Definition set_variable_attrs (legend : list legend_row) (temporal_agg : string)
    (st : locals) (variable : string) : result locals :=
  v' ← assign_v legend variable (loc_v st);
  v ← local v';
  attrs ← variable_attrs legend temporal_agg v;
  mret {| loc_v := Some v; loc_ds := set_attrs (loc_ds st) variable attrs |}.

(** [for x in l: body], stopping at the first exception. *)
Fixpoint for_each {S A : Type} (body : S -> A -> result S) (l : list A) (s : S)
  : result S :=
  match l with
  | [] => mret s
  | x :: l' => s' ← body s x; for_each body l' s'
  end.

(** Lines 150-171: [for variable in list(ds.data_vars)]. *)
Definition set_attributes (legend : list legend_row) (temporal_agg : string)
    (ds : Dataset) : result Dataset :=
  st ← for_each (set_variable_attrs legend temporal_agg)
         (ds_data_vars ds).*1 {| loc_v := None; loc_ds := ds |};
  mret (loc_ds st).

(** ** [check_date_format] *)

(** [dframe[name]] *)
Definition df_getitem (dframe : DataFrame) (name : string) : result (list value) :=
  match assoc name (df_columns dframe) with
  | Some c => mret c
  | None => raise KeyError
  end.

(** [series[0]], by label, under the default index. *)
Definition series_getitem0 (series : list value) : result value :=
  match series with
  | x :: _ => mret x
  | [] => raise KeyError
  end.

(** The local [date_format] stays unbound when no branch assigns it. *)
Definition check_date_format (dframe : DataFrame) (time_col_name : string)
  : result string :=
  series ← df_getitem dframe time_col_name;
  x ← series_getitem0 series;
  let date_digit_length := String.length (py_str x) in
  let date_format :=
    if decide (date_digit_length = 4%nat) then Some "%Y"
    else if decide (date_digit_length = 8%nat) then Some "%Y%m%d"
    else if decide (date_digit_length = 12%nat) then Some "%Y%m%d%H%M"
    else None in
  local date_format.

(** ** The file system *)

Inductive event : Type :=
  | Listdir (path : string)
  | Glob (pattern : string)
  | ReadCsv (path : string)
  | Mkdir (path : string)
  | ToNetcdf (path : string) (ds : Dataset).

(** What the calls that leave the process answer. *)
Record World : Type := {
  os_listdir : string -> lib_result (list string);
  glob_glob : string -> list string;
  os_path_basename : string -> string;
  os_path_join : string -> string -> string;
  (** [pd.read_csv(path)] for a station table *)
  read_csv : string -> lib_result DataFrame;
  (** [pd.read_csv('doc/variable_groups.csv', sep=';')] *)
  read_variable_groups : lib_result (list group_row);
  (** [pd.read_csv('output_variables.csv', sep='\t')] *)
  read_output_variables : lib_result (list flag_row);
  (** [datetime.now().strftime("%Y-%m-%d %H:%M:%S")] *)
  datetime_now : string;
  os_mkdir : string -> lib_result unit;
  to_netcdf : string -> Dataset -> lib_result unit;
}.

(** A computation that may raise and that logs the file-system calls made
    so far, oldest first. *)
Definition IO (A : Type) : Type := list event -> result A * list event.

Definition io_ret {A : Type} (x : A) : IO A := fun log => (inr x, log).

Definition io_bind {A B : Type} (m : IO A) (k : A -> IO B) : IO B :=
  fun log =>
    match m log with
    | (inl e, log') => (inl e, log')
    | (inr x, log') => k x log'
    end.

(** A statement that does not leave the process. *)
Definition io_lift {A : Type} (m : result A) : IO A := fun log => (m, log).

(** A call that leaves the process, with its answer. *)
Definition io_call {A : Type} (e : event) (answer : lib_result A) : IO A :=
  fun log => (lift answer, log ++ [e]).

(** [try: m except (e1, e2): raise e]. *)
Definition io_reraise {A : Type} (m : IO A) (caught : list exn) (e : exn) : IO A :=
  fun log =>
    match m log with
    | (inl e', log') =>
        (inl (if bool_decide (e' ∈ caught) then e else e'), log')
    | (inr x, log') => (inr x, log')
    end.

(** [try: m except e: pass]. *)
Definition io_pass (m : IO unit) (e : exn) : IO unit :=
  fun log =>
    match m log with
    | (inl e', log') => (if decide (e' = e) then inr tt else inl e', log')
    | (inr x, log') => (inr x, log')
    end.

End Data.

#[export] Instance IO_ret `{Runtime} : MRet IO := @io_ret _.
#[export] Instance IO_bind `{Runtime} : MBind IO := fun _ _ k m => io_bind m k.

Section Program.
Context `{Runtime}.

(** ** [find_flux_file] *)

(** Calling the class [SiteCodeError]: [__init__(self, site, message=...)]
    needs its [site]. *)
Definition SiteCodeError_call (args : list string) : result exn :=
  match args with
  | [site] | [site; _] => mret (SiteCodeError site)
  | _ => raise TypeError
  end.

(** [raise C] for a class [C] is [raise C()]. *)
Definition raise_class {A : Type} (C : list string -> result exn) : result A :=
  e ← C []; raise e.

(** [[x for x in l if p(x)]] for a test that may raise. *)
Fixpoint filter_r {A : Type} (p : A -> result bool) (l : list A) : result (list A) :=
  match l with
  | [] => mret []
  | x :: l' =>
      b ← p x;
      l'' ← filter_r p l';
      mret (if (b : bool) then x :: l'' else l'')
  end.

Definition find_flux_file (w : World) (path site temporal_agg settype : string)
  : IO string :=
  if negb (contains_item settype ["FULLSET"; "SUBSET"])
  then io_lift (raise (SetTypeError settype))
  else
    entries ← io_call (Listdir path) (os_listdir w path);
    let flux_dir := filter (fun dir => str_contains site dir = true) entries in
    if bool_decide (length flux_dir ≠ 1%nat)
    then io_lift (raise_class SiteCodeError_call)
    else
      d ← io_lift (getitem flux_dir 0);
      found ← io_call (Glob (path +:+ d +:+ "/*.csv"))
                (inr (glob_glob w (path +:+ d +:+ "/*.csv")));
      let files := os_path_basename w <$> found in
      files ← io_lift (filter_r (fun file =>
                 a ← getitem (split "_" file) 1;
                 if bool_decide (a = site)
                 then b ← getitem (split "_" file) 3;
                      mret (bool_decide (b = settype))
                 else mret false) files);
      fname ← io_lift (filter_r (fun file =>
                 a ← getitem (split "_" file) 4;
                 mret (bool_decide (a = temporal_agg))) files);
      d ← io_lift (getitem flux_dir 0);
      f ← io_lift (getitem fname 0);
      mret (d +:+ "/" +:+ f).

(** ** [filter_output] *)

(** Lines 98-110: the names that may be written, from the two tables and
    the columns of the station table. *)
Definition allowed_variables (variable_groups : list group_row)
    (output_variables : list flag_row) (df_columns : list string)
  : result (list string) :=
  let output_groups :=
    ov_GROUP <$> filter (fun r => ov_FLAG r = 1) output_variables in
  let output_variables :=
    vg_Variable <$> filter (fun r => vg_Group r ∈ output_groups) variable_groups in
  numbered_variables ←
    mapM (M := result)
      (fun numbered_variable =>
         pattern ← lift (re_compile (replace_char "#" "\d" numbered_variable));
         mret (filter (fun c => pattern c = true) df_columns))
      (filter (fun x => str_contains "#" x = true) output_variables);
  let numbered_variables := concat numbered_variables in
  let output_variables := output_variables ++ numbered_variables in
  mret (if negb (contains_item "QUALITY FLAGS" output_groups)
        then filter (fun v => str_contains "QC" v = false) output_variables
        else output_variables).

(** [index.difference(other)], up to order and repetition, which
    [df.drop] does not see. *)
Definition difference (index other : list string) : list string :=
  filter (fun c => c ∉ other) index.

(** [df.drop(columns=labels, errors='ignore')] *)
Definition df_drop (df : DataFrame) (labels : list string) : DataFrame :=
  {| df_index := df_index df;
     df_columns := filter (fun c => c.1 ∉ labels) (df_columns df) |}.

Definition filter_output (w : World) (df : DataFrame) : IO DataFrame :=
  variable_groups ← io_call (ReadCsv "doc/variable_groups.csv")
                      (read_variable_groups w);
  output_variables ← io_call (ReadCsv "output_variables.csv")
                       (read_output_variables w);
  output_variables ←
    io_lift (allowed_variables variable_groups output_variables (columns df));
  mret (df_drop df (difference (columns df) output_variables)).

(** ** [flux2netcdf] *)

(** [site_info.loc[site]]: a row when one row carries the label, a table
    when several do. *)
Inductive metadata : Type :=
  | Series (r : site_row)
  | Frame (rows : list site_row).

Definition site_info_loc (site_info : list site_row) (site : string)
  : result metadata :=
  match filter (fun r => si_site r = site) site_info with
  | [] => raise KeyError
  | [r] => mret (Series r)
  | rows => mret (Frame rows)
  end.

(** [metadata.loc[field]] *)
Definition metadata_loc (m : metadata) (field : site_row -> value) : result value :=
  match m with
  | Series r => mret (field r)
  | Frame _ => raise KeyError
  end.

(** [df.drop(columns=name, inplace=True)] *)
Definition df_drop_column (df : DataFrame) (name : string) : result DataFrame :=
  if bool_decide (name ∈ columns df) then mret (df_drop df [name])
  else raise KeyError.

(** Lines 131-135 *)
Definition time_column (temporal_agg : string) (df : DataFrame)
  : result (string * DataFrame) :=
  if bool_decide (temporal_agg = "HH") then
    df ← df_drop_column df "TIMESTAMP_END";
    mret ("TIMESTAMP_START", df)
  else mret ("TIMESTAMP", df).

(** Lines 139-141: the time column, parsed, becomes the index [time]. *)
Definition set_time_index (df : DataFrame) (time_col_name date_format : string)
  : result DataFrame :=
  series ← df_getitem df time_col_name;
  parsed ← lift (pd_to_datetime series date_format);
  mret {| df_index := Some ("time", parsed);
          df_columns := filter (fun c => c.1 ≠ time_col_name) (df_columns df) |}.

Definition lon_attrs : attrs_dict :=
  [("standard_name", ACell (Text "longitude"));
   ("long_name", ACell (Text "longitude coordinate"));
   ("units", ACell (Text "degrees_east"));
   ("_FillValue", ABool false)].

Definition lat_attrs : attrs_dict :=
  [("standard_name", ACell (Text "latitude"));
   ("long_name", ACell (Text "latitude coordinate"));
   ("units", ACell (Text "degrees_north"));
   ("_FillValue", ABool false)].

(** Lines 174-179 *)
Definition add_coordinates (m : metadata) (ds : Dataset) : result Dataset :=
  x ← metadata_loc m si_lon;
  let ds := setitem ds "lon" x in
  y ← metadata_loc m si_lat;
  let ds := setitem ds "lat" y in
  let ds := set_attrs ds "lon" lon_attrs in
  mret (set_attrs ds "lat" lat_attrs).

(** Lines 183-199 *)
Definition set_global_attrs (w : World) (m : metadata)
    (path site temporal_agg settype : string) (ds : Dataset) : result Dataset :=
  c ← metadata_loc m si_country;
  e ← metadata_loc m si_elev;
  x ← metadata_loc m si_lon;
  y ← metadata_loc m si_lat;
  p ← metadata_loc m si_pft;
  mret {| ds_time := ds_time ds;
          ds_time_attrs :=
            [("long_name", ACell (Text "time")); ("_FillValue", ABool false)];
          ds_data_vars := ds_data_vars ds;
          ds_attrs :=
            [("title", ACell (Text ("FLUXNET 2015 Tier 2 " +:+ site +:+ " "
                                      +:+ temporal_agg)));
             ("content", ACell (Text ("Flux station " +:+ site)));
             ("country", AValue c);
             ("elevation", AValue e);
             ("longitude", AValue x);
             ("latitude", AValue y);
             ("plant_functional_type", AValue p);
             ("institution", ACell (Text "https://fluxnet.org"));
             ("source", ACell (Text "FLUXNET"));
             ("history", ACell (Text (datetime_now w
                 +:+ " Python 3.9 fluxnetCDF.py main(" +:+ path +:+ ", "
                 +:+ site +:+ ", " +:+ temporal_agg +:+ ", " +:+ settype)));
             ("contact", ACell (Text "marco.hannemann@ufz.de"));
             ("comment", ACell (Text
                "Data converted from raw .CSV data to netCDF without any further processing steps."))]
       |}.

(** Lines 147-199: from the filtered table to the annotated dataset. *)
Definition annotate (w : World) (legend : list legend_row) (m : metadata)
    (path site temporal_agg settype : string) (df : DataFrame) : result Dataset :=
  let ds := to_xarray df in
  ds ← set_attributes legend temporal_agg ds;
  ds ← add_coordinates m ds;
  set_global_attrs w m path site temporal_agg settype ds.

(** [legend] and [site_info] are the module's two global tables. *)
Definition flux2netcdf (w : World) (legend : list legend_row)
    (site_info : list site_row) (path site temporal_agg settype : string)
  : IO unit :=
  if negb (contains_item temporal_agg ["HH"; "DD"; "WW"; "YY"])
  then io_lift (raise (TemporalResolutionError temporal_agg))
  else
    fname ← find_flux_file w path site temporal_agg settype;
    loaded ← io_reraise
      (df ← io_call (ReadCsv (os_path_join w path fname))
              (read_csv w (os_path_join w path fname));
       m ← io_lift (site_info_loc site_info site);
       mret (df, m))
      [Builtin ValueError; Builtin IndexError] (SiteCodeError site);
    let df := loaded.1 in
    let m := loaded.2 in
    named ← io_lift (time_column temporal_agg df);
    let time_col_name := named.1 in
    let df := named.2 in
    date_format ← io_lift (check_date_format df time_col_name);
    df ← io_lift (set_time_index df time_col_name date_format);
    df ← filter_output w df;
    ds ← io_lift (annotate w legend m path site temporal_agg settype df);
    _ ← io_pass (io_call (Mkdir "netcdf") (os_mkdir w "netcdf")) FileExistsError;
    let out := "netcdf/FLX_" +:+ site +:+ "_" +:+ temporal_agg +:+ ".nc" in
    io_call (ToNetcdf out ds) (to_netcdf w out ds).

End Program.

(** ** An instance to run the program on *)

(** [re.compile(p).match(s) is not None] for a pattern read as made of
    the class [\d] and of characters that stand for themselves: [p] has to
    match a prefix of [s]. *)
Fixpoint match_here (p s : string) : bool :=
  match p with
  | EmptyString => true
  | String a p' =>
      let digit_class :=
        match p' with
        | String b p'' =>
            if bool_decide (a = "\"%char /\ b = "d"%char) then Some p'' else None
        | EmptyString => None
        end in
      match digit_class, s with
      | Some _, EmptyString => false
      | Some _, String c s' =>
          is_digit c &&
          match p' with
          | String _ p'' => match_here p'' s'
          | EmptyString => false
          end
      | None, EmptyString => false
      | None, String c s' => bool_decide (a = c) && match_here p' s'
      end
  end.

(** Scalars that are integers or texts; [np.isnan] rejects a text as numpy
    does; every pattern compiles, to [match_here]; timestamps are kept as
    they are read. *)
#[export] Instance numpy_runtime : Runtime := {|
  value := Z + string;
  py_str := fun x =>
    match x with
    | inl n => NilZero.string_of_int (Z.to_int n)
    | inr s => s
    end;
  np_isnan_text := fun _ => inl TypeError;
  re_compile := fun p => inr (match_here p);
  pd_to_datetime := fun column _ => inr column;
|}.

(** A legend in the layout of the FLUXNET2015 variable list: a variable
    row, then its rows per temporal aggregation. *)
Definition legend_ex : list legend_row :=
  [ {| col_Variable := Text "TA_F_MDS";
       col_Description := Text "Air temperature";
       col_Units := NaN |};
    {| col_Variable := Text "HH"; col_Description := NaN;
       col_Units := Text "deg C" |};
    {| col_Variable := Text "DD"; col_Description := NaN;
       col_Units := Text "deg C (mean)" |};
    {| col_Variable := Text "NEE_CUT_XX";
       col_Description := Text "Net ecosystem exchange, percentile";
       col_Units := NaN |};
    {| col_Variable := Text "HH"; col_Description := NaN;
       col_Units := Text "umolCO2 m-2 s-1" |};
    {| col_Variable := Text "DD"; col_Description := NaN;
       col_Units := Text "gC m-2 d-1" |};
    {| col_Variable := Text "WW-MM"; col_Description := NaN;
       col_Units := Text "gC m-2 d-1" |};
    {| col_Variable := Text "YY"; col_Description := NaN;
       col_Units := Text "gC m-2 y-1" |} ].

Definition dataset_ex (names : list string) : Dataset :=
  to_xarray {| df_index := Some ("time", [inl 2002]);
               df_columns := (fun c => (c, [inl 1])) <$> names |}.

(** A station directory and the tables around it. *)
Definition basename_ex (path : string) : string :=
  match getitem (split "/" path) (-1) with
  | inr name => name
  | inl _ => path
  end.

Definition station_ex : DataFrame :=
  {| df_index := None;
     df_columns :=
       [("TIMESTAMP", [inl 20020101; inl 20020102]);
        ("TA_F_MDS", [inl 3; inl 4]);
        ("TA_F_MDS_QC", [inl 0; inl 1]);
        ("NEE_CUT_50", [inl 1; inl 2]);
        ("SWC_F_MDS_1", [inl 30; inl 31]);
        ("SWC_F_MDS_1_QC", [inl 0; inl 0]);
        ("FOO_UNKNOWN", [inl 7; inl 7])] |}.

Definition variable_groups_ex : list group_row :=
  [ {| vg_Variable := "TA_F_MDS"; vg_Group := "MICROMETEOROLOGICAL" |};
    {| vg_Variable := "TA_F_MDS_QC"; vg_Group := "QUALITY FLAGS" |};
    {| vg_Variable := "SWC_F_MDS_#"; vg_Group := "MICROMETEOROLOGICAL" |};
    {| vg_Variable := "SWC_F_MDS_#_QC"; vg_Group := "QUALITY FLAGS" |};
    {| vg_Variable := "NEE_CUT_50"; vg_Group := "NET ECOSYSTEM EXCHANGE" |};
    {| vg_Variable := "P_F"; vg_Group := "MICROMETEOROLOGICAL" |} ].

Definition output_variables_ex : list flag_row :=
  [ {| ov_GROUP := "MICROMETEOROLOGICAL"; ov_FLAG := 1 |};
    {| ov_GROUP := "NET ECOSYSTEM EXCHANGE"; ov_FLAG := 1 |};
    {| ov_GROUP := "QUALITY FLAGS"; ov_FLAG := 0 |} ].

Definition world_ex (dirs : list string) : World :=
  {| os_listdir := fun _ => inr dirs;
     glob_glob := fun pattern =>
       if bool_decide
            (pattern = "data/FLX_AT-Neu_FLUXNET2015_FULLSET_2002-2012_1-4/*.csv")
       then ["data/FLX_AT-Neu_FLUXNET2015_FULLSET_2002-2012_1-4/FLX_AT-Neu_FLUXNET2015_FULLSET_DD_2002-2012_1-4.csv";
             "data/FLX_AT-Neu_FLUXNET2015_FULLSET_2002-2012_1-4/FLX_AT-Neu_FLUXNET2015_FULLSET_YY_2002-2012_1-4.csv"]
       else [];
     os_path_basename := basename_ex;
     os_path_join := fun a b => a +:+ b;
     read_csv := fun _ => inr station_ex;
     read_variable_groups := inr variable_groups_ex;
     read_output_variables := inr output_variables_ex;
     datetime_now := "2021-03-01 12:00:00";
     os_mkdir := fun _ => inr tt;
     to_netcdf := fun _ _ => inr tt |}.

Definition site_info_ex : list site_row :=
  [ {| si_site := "AT-Neu"; si_lat := inl 47; si_lon := inl 11;
       si_elev := inl 970; si_country := inr "Austria"; si_pft := inr "GRA" |} ].

(** A table with one column of integers. *)
Definition column_ex (name : string) (xs : list Z) : DataFrame :=
  {| df_index := None;
     df_columns := [(name, (fun n => inl n : value) <$> xs)] |}.

(** ** Which exceptions a computation can raise *)

(** An exception of another class than [TemporalResolutionError]. *)
Definition other (e : exn) : Prop := forall a, e <> TemporalResolutionError a.

Definition raises_other {A : Type} (m : result A) : Prop :=
  forall e, m = inl e -> other e.

Definition io_raises_other `{Runtime} {A : Type} (m : IO A) : Prop :=
  forall log e log', m log = (inl e, log') -> other e.

(** ** The attributes of a data variable *)

(** The attribute set the loop assigns: a description, a unit and the
    fill value, and nothing else. *)
Definition data_attrs `{Runtime} (a : attrs_dict) : Prop :=
  exists long_name unit,
    a = [("long_name", ACell long_name);
         ("units", ACell unit);
         ("_FillValue", AFloat fill_value)].

(** The table of [station_ex] once the time index is set and the columns
    are filtered. *)
Definition retained_ex : DataFrame :=
  {| df_index := Some ("time", [inl 20020101; inl 20020102]);
     df_columns :=
       [("TA_F_MDS", [inl 3; inl 4]); ("NEE_CUT_50", [inl 1; inl 2])] |}.

Definition metadata_ex : metadata :=
  Series {| si_site := "AT-Neu"; si_lat := inl 47; si_lon := inl 11;
            si_elev := inl 970; si_country := inr "Austria";
            si_pft := inr "GRA" |}.

(** ** [main] *)

(** [s[a:]] *)
Fixpoint str_drop (n : nat) (s : string) : string :=
  match n, s with
  | S n', String _ s' => str_drop n' s'
  | _, _ => s
  end.

(** [s[a:b]] for [0 <= a <= b]; the slice is clipped to the string. *)
Definition slice (s : string) (a b : nat) : string :=
  str_take (b - a) (str_drop a s).

(** Line 226: the site codes read off the directory names. *)
Definition all_sites (entries : list string) : list string :=
  (fun x => slice x 4 10) <$> filter (fun x => slice x 0 3 = "FLX") entries.

Section Driver.
Context `{Runtime}.

(** What a run of [main] leaves: its outcome, the lines printed, and the
    log of file-system calls. *)
Definition run : Type := result unit * list string * list event.

(** Lines 227-231: [for site in all_sites]; an exception of
    [flux2netcdf] is not caught and ends the loop. *)
Fixpoint convert_sites (w : World) (legend : list legend_row)
    (site_info : list site_row) (path temporal_agg settype : string)
    (sites : list string) (out : list string) (log : list event) : run :=
  match sites with
  | [] => (inr tt, out, log)
  | site :: sites' =>
      let out := out ++ [site] in
      if bool_decide (site = "AA-Flx")
      then convert_sites w legend site_info path temporal_agg settype sites'
             out log
      else
        match flux2netcdf w legend site_info path site temporal_agg settype log with
        | (inl e, log') => (inl e, out, log')
        | (inr _, log') =>
            convert_sites w legend site_info path temporal_agg settype sites'
              out log'
        end
  end.

Definition main (w : World) (legend : list legend_row)
    (site_info : list site_row) (path site temporal_agg settype : string)
    (out : list string) (log : list event) : run :=
  if bool_decide (site = "all") then
    match os_listdir w path with
    | inl e => (inl (Builtin e), out, log ++ [Listdir path])
    | inr entries =>
        convert_sites w legend site_info path temporal_agg settype
          (all_sites entries) out (log ++ [Listdir path])
    end
  else
    match flux2netcdf w legend site_info path site temporal_agg settype log with
    | (r, log') => (r, out, log')
    end.

End Driver.

(** [np.isnan] that answers [False] on every text; the other fields are
    those of [numpy_runtime]. *)
Definition lenient_runtime : Runtime :=
  {| value := Z + string;
     py_str := @py_str numpy_runtime;
     np_isnan_text := fun _ => inr false;
     re_compile := @re_compile numpy_runtime;
     pd_to_datetime := @pd_to_datetime numpy_runtime |}.

(** A legend with a unit that does not depend on the aggregation. *)
Definition legend_scalar_ex : list legend_row :=
  [ {| col_Variable := Text "TIMESTAMP";
       col_Description := Text "ISO timestamp";
       col_Units := Text "YYYYMMDDHHMM" |};
    {| col_Variable := Text "P_F";
       col_Description := Text "Precipitation";
       col_Units := NaN |};
    {| col_Variable := Text "HH"; col_Description := NaN;
       col_Units := Text "mm" |};
    {| col_Variable := Text "DD"; col_Description := NaN;
       col_Units := Text "mm d-1" |} ].

(** The table of [station_ex] with its time index set. *)
Definition indexed_ex : DataFrame :=
  {| df_index := Some ("time", [inl 20020101; inl 20020102]);
     df_columns :=
       [("TA_F_MDS", [inl 3; inl 4]);
        ("TA_F_MDS_QC", [inl 0; inl 1]);
        ("NEE_CUT_50", [inl 1; inl 2]);
        ("SWC_F_MDS_1", [inl 30; inl 31]);
        ("SWC_F_MDS_1_QC", [inl 0; inl 0]);
        ("FOO_UNKNOWN", [inl 7; inl 7])] |}.

(** The columns of [indexed_ex] that [filter_output] keeps. *)
Definition filtered_ex : DataFrame :=
  {| df_index := Some ("time", [inl 20020101; inl 20020102]);
     df_columns :=
       [("TA_F_MDS", [inl 3; inl 4]);
        ("NEE_CUT_50", [inl 1; inl 2]);
        ("SWC_F_MDS_1", [inl 30; inl 31])] |}.

(** The dataset [annotate] makes of [filtered_ex]. *)
Definition converted_ex : Dataset :=
  Eval vm_compute in
    match annotate (world_ex []) legend_ex metadata_ex "data/" "AT-Neu" "DD"
            "FULLSET" filtered_ex with
    | inr ds => ds
    | inl _ => to_xarray filtered_ex
    end.

(** The dataset [annotate] makes of [retained_ex]. *)
Definition annotated_ex : Dataset :=
  Eval vm_compute in
    match annotate (world_ex []) legend_ex metadata_ex "data/" "AT-Neu" "DD"
            "FULLSET" retained_ex with
    | inr ds => ds
    | inl _ => to_xarray retained_ex
    end.

(** Closes an equation between closed terms by evaluating its left side. *)
Ltac vm_refl :=
  lazymatch goal with
  | |- @eq ?T ?l ?r => exact (@eq_refl T r <: @eq T l r)
  end.

(** ** The unit block of the specification *)

(** The aggregation codes [flux2netcdf] accepts. *)
Definition aggregation_codes : list string := ["HH"; "DD"; "WW"; "YY"].

(** The rows at the head of [rows] whose [Variable] is an aggregation
    code. *)
Fixpoint leading_code_rows (rows : list legend_row) : list legend_row :=
  match rows with
  | [] => []
  | r :: rows' =>
      if bool_decide (col_Variable r ∈ (Text <$> aggregation_codes))
      then r :: leading_code_rows rows'
      else []
  end.

(** The unit block in the sense of the specification (section 3): the
    pairs of aggregation code and unit of one variable.  In the layout of
    the legend these are the rows with an aggregation code that follow the
    variable's own row; the block ends where the next variable begins. *)
Definition spec_unit_block (legend : list legend_row) (v : string)
  : list legend_row :=
  match list_find (fun r => col_Variable r = Text v) legend with
  | Some (i, _) => leading_code_rows (drop (S i) legend)
  | None => []
  end.

(** A legend in which a variable with one unit row is followed by another
    variable. *)
Definition legend_neighbour_ex : list legend_row :=
  [ {| col_Variable := Text "TS_F_MDS";
       col_Description := Text "Soil temperature";
       col_Units := NaN |};
    {| col_Variable := Text "HH"; col_Description := NaN;
       col_Units := Text "deg C" |};
    {| col_Variable := Text "P_F";
       col_Description := Text "Precipitation";
       col_Units := NaN |};
    {| col_Variable := Text "DD"; col_Description := NaN;
       col_Units := Text "mm d-1" |} ].

(** * Properties *)

(** ** Python primitives *)

Example split_ex : split "_" "TA_F_MDS_CUT_50" = ["TA"; "F"; "MDS"; "CUT"; "50"].
Proof. reflexivity. Qed.

Example split_empty_ex : split "_" "" = [""] /\ split "_" "_a_" = [""; "a"; ""].
Proof. split; reflexivity. Qed.

Example getitem_ex :
  getitem (split "_" "TA_F_MDS_CUT_50") (-2) = inr "CUT"
  /\ getitem (split "_" "FOO") (-2) = raise IndexError.
Proof. split; reflexivity. Qed.

Example slice_ex :
  slice_until "NEE_CUT_05" (-2) = "NEE_CUT_" /\ slice_until "A" (-2) = "".
Proof. split; reflexivity. Qed.

Example contains_ex :
  str_contains "QC" "TA_F_MDS_QC" = true /\ str_contains "QC" "TA_F_MDS" = false.
Proof. split; reflexivity. Qed.

Example match_here_ex :
  match_here (replace_char "#" "\d" "SWC_F_MDS_#")
    <$> ["SWC_F_MDS_1"; "SWC_F_MDS_1_QC"; "SWC_F_MDS"; "SWC_F_MDS_X"]
  = [true; true; false; false].
Proof. reflexivity. Qed.

Section PyFacts.

Lemma split_nonempty sep s : split sep s <> [].
Proof.
  destruct s as [|c s]; simpl; [done|].
  destruct (decide (c = sep)); [done|].
  destruct (split sep s); done.
Qed.

(** Splitting distributes over a separator in the middle. *)
Lemma split_app sep s t :
  split sep (s +:+ String sep t) = split sep s ++ split sep t.
Proof.
  induction s as [|c s IH]; simpl.
  - destruct (decide (sep = sep)); [done|congruence].
  - rewrite IH. destruct (decide (c = sep)); [done|].
    pose proof (split_nonempty sep s).
    destruct (split sep s); [done|reflexivity].
Qed.

(** A run of digits is a single token. *)
Lemma split_all_digits d : all_digits d = true -> split "_" d = [d].
Proof.
  induction d as [|c d IH]; simpl; [done|].
  intros [Hc Hd]%andb_prop.
  destruct (decide (c = "_"%char)) as [->|_].
  - vm_compute in Hc. discriminate.
  - rewrite IH by done. reflexivity.
Qed.

Lemma isdigit_all_digits d : isdigit d = true -> all_digits d = true.
Proof. destruct d; [discriminate|done]. Qed.

Lemma getitem_last {A} (l : list A) (x : A) : getitem (l ++ [x]) (-1) = inr x.
Proof.
  unfold getitem. rewrite length_app. simpl length.
  destruct (decide (0 <= -1 < _)); [lia|].
  destruct (decide (_ <= -1 < 0)); [|lia].
  replace (Z.to_nat (Z.of_nat (length l + 1) + -1)) with (length l) by lia.
  rewrite lookup_app_r by lia. rewrite Nat.sub_diag. reflexivity.
Qed.

Lemma getitem_last_but_one {A} (l : list A) (x y : A) :
  getitem (l ++ [x; y]) (-2) = inr x.
Proof.
  unfold getitem. rewrite length_app. simpl length.
  destruct (decide (0 <= -2 < _)); [lia|].
  destruct (decide (_ <= -2 < 0)); [|lia].
  replace (Z.to_nat (Z.of_nat (length l + 2) + -2)) with (length l) by lia.
  rewrite lookup_app_r by lia. rewrite Nat.sub_diag. reflexivity.
Qed.

Lemma getitem_0 {A} (x : A) (l : list A) : getitem (x :: l) 0 = inr x.
Proof.
  unfold getitem. simpl length.
  destruct (decide (0 <= 0 < _)); [reflexivity|lia].
Qed.

Lemma str_app_cons c (s t : string) : String c s +:+ t = String c (s +:+ t).
Proof. reflexivity. Qed.

Lemma str_app_assoc (s t u : string) : (s +:+ t) +:+ u = s +:+ (t +:+ u).
Proof.
  induction s as [|c s IH]; [done|].
  rewrite !str_app_cons. by rewrite IH.
Qed.

Lemma str_length_app (s t : string) :
  String.length (s +:+ t) = (String.length s + String.length t)%nat.
Proof.
  induction s as [|c s IH]; [done|].
  rewrite str_app_cons. simpl. by rewrite IH.
Qed.

Lemma str_take_app (s t : string) : str_take (String.length s) (s +:+ t) = s.
Proof.
  induction s as [|c s IH]; [by destruct t|].
  rewrite str_app_cons. simpl. by rewrite IH.
Qed.

(** Cutting the last [n] characters off. *)
Lemma slice_until_app (s t : string) :
  t <> "" ->
  slice_until (s +:+ t) (- Z.of_nat (String.length t)) = s.
Proof.
  intros Ht. unfold slice_until.
  assert (0 < String.length t)%nat by (destruct t; [done|simpl; lia]).
  destruct (decide (0 <= _)); [lia|].
  rewrite str_length_app.
  replace (Z.to_nat _) with (String.length s) by lia.
  apply str_take_app.
Qed.

End PyFacts.

(** ** The dynamic-threshold rewrite (lines 153-155) *)

Section Rewrite.
Context `{Runtime}.

Lemma split_CUT (b d : string) :
  all_digits d = true ->
  split "_" (b +:+ "_CUT_" +:+ d) = split "_" b ++ ["CUT"; d].
Proof.
  intros Hd.
  change ("_CUT_" +:+ d) with (String "_" ("CUT" +:+ String "_" d)).
  rewrite !split_app. rewrite (split_all_digits d Hd). reflexivity.
Qed.

(** A name [<base>_CUT_<two digits>] that the legend does not list is
    rewritten to [<base>_CUT_XX], whatever [v] held before. *)
Lemma assign_v_CUT legend (b d : string) (v0 : option string) :
  isdigit d = true ->
  String.length d = 2%nat ->
  Legend.has_Variable legend (b +:+ "_CUT_" +:+ d) = false ->
  assign_v legend (b +:+ "_CUT_" +:+ d) v0 = inr (Some (b +:+ "_CUT_XX")).
Proof.
  intros Hd Hlen Hnot. unfold assign_v. rewrite Hnot.
  rewrite split_CUT by by apply isdigit_all_digits.
  rewrite getitem_last_but_one. simpl.
  change (split "_" b ++ ["CUT"; d]) with (split "_" b ++ [ "CUT" ] ++ [d]).
  rewrite app_assoc, getitem_last. simpl. rewrite Hd.
  rewrite <- (str_app_assoc b "_CUT_" d).
  replace (-2) with (- Z.of_nat (String.length d)) by lia.
  rewrite slice_until_app by (intros ->; discriminate).
  rewrite str_app_assoc. reflexivity.
Qed.

End Rewrite.

(** C2, as amended: for a base and two suffixes of exactly two digits each,
    when neither [<base>_CUT_<suffix>] is a legend entry, the loop rewrites
    both names to [<base>_CUT_XX] before any lookup, and gives both
    variables the attributes (description, unit, fill value) computed for
    that one canonical name, or fails on both with the same exception. *)
Theorem CUT_two_digit_replicates_share_definition `{Runtime}
    (legend : list legend_row) (temporal_agg : string) (st : locals)
    (b d1 d2 : string) :
  isdigit d1 = true -> String.length d1 = 2%nat ->
  isdigit d2 = true -> String.length d2 = 2%nat ->
  Legend.has_Variable legend (b +:+ "_CUT_" +:+ d1) = false ->
  Legend.has_Variable legend (b +:+ "_CUT_" +:+ d2) = false ->
  assign_v legend (b +:+ "_CUT_" +:+ d1) (loc_v st) = inr (Some (b +:+ "_CUT_XX"))
  /\ assign_v legend (b +:+ "_CUT_" +:+ d2) (loc_v st) = inr (Some (b +:+ "_CUT_XX"))
  /\ set_variable_attrs legend temporal_agg st (b +:+ "_CUT_" +:+ d1)
     = (attrs ← variable_attrs legend temporal_agg (b +:+ "_CUT_XX");
        mret {| loc_v := Some (b +:+ "_CUT_XX");
                loc_ds := set_attrs (loc_ds st) (b +:+ "_CUT_" +:+ d1) attrs |})
  /\ set_variable_attrs legend temporal_agg st (b +:+ "_CUT_" +:+ d2)
     = (attrs ← variable_attrs legend temporal_agg (b +:+ "_CUT_XX");
        mret {| loc_v := Some (b +:+ "_CUT_XX");
                loc_ds := set_attrs (loc_ds st) (b +:+ "_CUT_" +:+ d2) attrs |}).
Proof.
  intros Hd1 Hl1 Hd2 Hl2 Hn1 Hn2.
  pose proof (assign_v_CUT legend b d1 (loc_v st) Hd1 Hl1 Hn1) as E1.
  pose proof (assign_v_CUT legend b d2 (loc_v st) Hd2 Hl2 Hn2) as E2.
  repeat split; [done|done|..];
    unfold set_variable_attrs; [rewrite E1|rewrite E2]; reflexivity.
Qed.

Lemma CUT_two_digit_replicates_witness :
  let st := {| loc_v := None; loc_ds := dataset_ex ["NEE_CUT_50"; "NEE_CUT_75"] |} in
  assign_v legend_ex ("NEE" +:+ "_CUT_" +:+ "50") (loc_v st) = inr (Some ("NEE" +:+ "_CUT_XX"))
  /\ assign_v legend_ex ("NEE" +:+ "_CUT_" +:+ "75") (loc_v st) = inr (Some ("NEE" +:+ "_CUT_XX"))
  /\ set_variable_attrs legend_ex "HH" st ("NEE" +:+ "_CUT_" +:+ "50")
     = (attrs ← variable_attrs legend_ex "HH" ("NEE" +:+ "_CUT_XX");
        mret {| loc_v := Some ("NEE" +:+ "_CUT_XX");
                loc_ds := set_attrs (loc_ds st) ("NEE" +:+ "_CUT_" +:+ "50") attrs |})
  /\ set_variable_attrs legend_ex "HH" st ("NEE" +:+ "_CUT_" +:+ "75")
     = (attrs ← variable_attrs legend_ex "HH" ("NEE" +:+ "_CUT_XX");
        mret {| loc_v := Some ("NEE" +:+ "_CUT_XX");
                loc_ds := set_attrs (loc_ds st) ("NEE" +:+ "_CUT_" +:+ "75") attrs |}).
Proof.
  intros st.
  apply (CUT_two_digit_replicates_share_definition legend_ex "HH" st "NEE" "50" "75");
    reflexivity.
Defined.

(** C2, as stated, fails for a suffix that is not two digits long: the last
    two characters are cut whatever the length of the digit run, so a
    one-digit replicate loses its underscore and a three-digit one keeps a
    digit; neither reaches the entry [NEE_CUT_XX] that [NEE_CUT_50] gets. *)
Lemma CUT_other_widths_counterexample :
  isdigit "5" = true
  /\ Legend.has_Variable legend_ex "NEE_CUT_5" = false
  /\ assign_v legend_ex "NEE_CUT_5" None = inr (Some "NEE_CUTXX")
  /\ assign_v legend_ex "NEE_CUT_100" None = inr (Some "NEE_CUT_1XX")
  /\ assign_v legend_ex "NEE_CUT_50" None = inr (Some "NEE_CUT_XX")
  /\ set_attributes legend_ex "HH" (dataset_ex ["NEE_CUT_5"]) = raise IndexError
  /\ set_attributes legend_ex "HH" (dataset_ex ["NEE_CUT_50"])
     = inr (set_attrs (dataset_ex ["NEE_CUT_50"]) "NEE_CUT_50"
              [("long_name", ACell (Text "Net ecosystem exchange, percentile"));
               ("units", ACell (Text "umolCO2 m-2 s-1"));
               ("_FillValue", AFloat fill_value)]).
Proof. repeat split; vm_compute; reflexivity. Qed.

(** ** The loop: what it keeps, what it raises *)

Section Loop.
Context `{Runtime}.

(** An invariant of [for_each], indexed by the items already handled. *)
Lemma for_each_invariant {S A : Type} (body : S -> A -> result S)
    (P : list A -> S -> Prop) (l : list A) (s0 s' : S) :
  P [] s0 ->
  (forall done x s t, P done s -> body s x = inr t -> P (done ++ [x]) t) ->
  for_each body l s0 = inr s' ->
  P l s'.
Proof.
  intros H0 Hstep.
  cut (forall done s, P done s -> for_each body l s = inr s' -> P (done ++ l) s').
  { intros Hcut. apply (Hcut [] s0 H0). }
  induction l as [|x l IH]; intros done s HP; simpl.
  - intros [= <-]. by rewrite app_nil_r.
  - destruct (body s x) as [e|t] eqn:Hb; simpl; [discriminate|].
    intros Hrest. rewrite (cons_middle x done l), app_assoc.
    eapply IH; [|exact Hrest]. eapply Hstep; eauto.
Qed.

Lemma set_attrs_names ds name a :
  (ds_data_vars (set_attrs ds name a)).*1 = (ds_data_vars ds).*1.
Proof.
  unfold set_attrs; simpl. rewrite <- list_fmap_compose.
  apply list_fmap_ext. intros i [k da] _. simpl. by destruct (decide (k = name)).
Qed.

(** Every successful iteration leaves some canonical name in [v], and the
    names of the data variables as they were. *)
Lemma set_variable_attrs_inr legend temporal_agg st variable st' :
  set_variable_attrs legend temporal_agg st variable = inr st' ->
  exists v attrs,
    variable_attrs legend temporal_agg v = inr attrs
    /\ st' = {| loc_v := Some v;
                loc_ds := set_attrs (loc_ds st) variable attrs |}.
Proof.
  unfold set_variable_attrs.
  destruct (assign_v legend variable (loc_v st)) as [e|[v|]]; simpl; try done.
  destruct (variable_attrs legend temporal_agg v) as [e|attrs] eqn:Ha;
    simpl; try done.
  intros [= <-]. eauto.
Qed.

(** The loop has no way to drop a data variable: when it ends, the dataset
    has the names it started with. *)
Lemma set_attributes_keeps_names legend temporal_agg ds ds' :
  set_attributes legend temporal_agg ds = inr ds' ->
  (ds_data_vars ds').*1 = (ds_data_vars ds).*1.
Proof.
  unfold set_attributes.
  destruct (for_each _ _ _) as [e|st] eqn:Hloop; simpl; [done|].
  intros [= <-].
  apply (for_each_invariant _
           (fun _ st => (ds_data_vars (loc_ds st)).*1 = (ds_data_vars ds).*1))
    in Hloop; [done|done|].
  intros done x s t Hs (v & attrs & _ & ->)%set_variable_attrs_inr.
  cbn [loc_ds]. by rewrite set_attrs_names.
Qed.

(** A first data variable that the legend does not list and that is no
    [_CUT_<digits>] name stops the loop with an exception: [v] is read
    before any assignment, or the name has no second-to-last token. *)
Lemma unmatched_first_variable_raises legend temporal_agg ds variable rest :
  (ds_data_vars ds).*1 = variable :: rest ->
  Legend.has_Variable legend variable = false ->
  (getitem (split "_" variable) (-2) = inr "CUT" ->
   forall d, getitem (split "_" variable) (-1) = inr d -> isdigit d = false) ->
  set_attributes legend temporal_agg ds = raise UnboundLocalError
  \/ set_attributes legend temporal_agg ds = raise IndexError.
Proof.
  intros Hnames Hnot Hcut. unfold set_attributes. rewrite Hnames. simpl.
  unfold set_variable_attrs, assign_v. rewrite Hnot. simpl.
  destruct (getitem (split "_" variable) (-2)) as [e|t] eqn:Ht; simpl.
  - right. revert Ht. unfold getitem.
    repeat case_decide; repeat case_match; try done; by intros [= <-].
  - case_bool_decide as Hc; simpl; [subst t|by left].
    destruct (getitem (split "_" variable) (-1)) as [e|d] eqn:Hd; simpl.
    + right. revert Hd. unfold getitem.
      repeat case_decide; repeat case_match; try done; by intros [= <-].
    + rewrite (Hcut eq_refl d eq_refl). by left.
Qed.

End Loop.

(** C1: a retained column without a legend entry should be dropped and the
    loop should go on without raising.  The code does neither.  When such a
    column comes first, [v] is still unbound and the loop raises
    [UnboundLocalError]; a name without underscore raises [IndexError] on
    its second-to-last token; after a resolved column, [v] still holds that
    column's canonical name, and the unmatched column is kept, with the
    other variable's description and unit. *)
Theorem unmatched_column_raises_or_is_mislabelled :
  Legend.has_Variable legend_ex "FOO_UNKNOWN" = false
  /\ Legend.has_Variable legend_ex "FOO" = false
  /\ set_attributes legend_ex "DD" (dataset_ex ["FOO_UNKNOWN"; "TA_F_MDS"])
     = raise UnboundLocalError
  /\ set_attributes legend_ex "DD" (dataset_ex ["TA_F_MDS"; "FOO"])
     = raise IndexError
  /\ set_attributes legend_ex "DD" (dataset_ex ["TA_F_MDS"; "FOO_UNKNOWN"])
     = inr (set_attrs
              (set_attrs (dataset_ex ["TA_F_MDS"; "FOO_UNKNOWN"]) "TA_F_MDS"
                 [("long_name", ACell (Text "Air temperature"));
                  ("units", ACell (Text "deg C (mean)"));
                  ("_FillValue", AFloat fill_value)])
              "FOO_UNKNOWN"
              [("long_name", ACell (Text "Air temperature"));
               ("units", ACell (Text "deg C (mean)"));
               ("_FillValue", AFloat fill_value)]).
Proof. repeat split; vm_compute; reflexivity. Qed.

(** ** The unit lookup (lines 156-166) *)

Section Units.
Context `{Runtime}.

Lemma enumerate_lookup {A} (l : list A) (k i : nat) (x : A) :
  (i, x) ∈ enumerate k l -> (k <= i)%nat /\ l !! (i - k)%nat = Some x.
Proof.
  revert k. induction l as [|y l IH]; intros k; simpl.
  - by intros ?%elem_of_nil.
  - intros [[= -> ->]|Hin]%elem_of_cons.
    + split; [lia|]. by rewrite Nat.sub_diag.
    + apply IH in Hin as [Hle Hl]. split; [lia|].
      replace (i - k)%nat with (S (i - S k)) by lia. done.
Qed.

Lemma iloc_cons legend (i : nat) (positions : list nat) :
  Legend.iloc legend (i :: positions)
  = (r ← match legend !! i with
         | Some r => mret r
         | None => raise IndexError
         end;
     k ← Legend.iloc legend positions;
     mret (r :: k)).
Proof. reflexivity. Qed.

(** Reading a table back at index labels taken from it. *)
Lemma iloc_labels legend (frame : list (nat * legend_row)) :
  (forall i r, (i, r) ∈ frame -> legend !! i = Some r) ->
  Legend.iloc legend (Legend.index frame) = inr frame.*2.
Proof.
  unfold Legend.index.
  induction frame as [|[i r] frame IH]; intros Hin; [done|].
  rewrite !fmap_cons, iloc_cons. cbn [fst snd].
  rewrite (Hin i r) by left.
  rewrite IH; [done|]. intros j q Hj. apply Hin. by right.
Qed.

Lemma iloc_where legend v :
  Legend.iloc legend (Legend.index (Legend.where_Variable legend v))
  = inr (Legend.where_Variable legend v).*2.
Proof.
  apply iloc_labels. intros i r [_ Hin]%list_elem_of_filter.
  apply enumerate_lookup in Hin as [_ Hl]. by rewrite Nat.sub_0_r in Hl.
Qed.

Lemma filter_enumerate_first legend v (k i : nat) r :
  list_find (fun r => col_Variable r = Text v) legend = Some (i, r) ->
  exists rest,
    filter (fun ir : nat * legend_row => col_Variable ir.2 = Text v)
      (enumerate k legend) = ((k + i)%nat, r) :: rest.
Proof.
  revert i k. induction legend as [|q legend IH]; intros i k; simpl; [done|].
  destruct (decide (col_Variable q = Text v)) as [Hq|Hq].
  - intros [= <- <-]. rewrite filter_cons_True by done.
    rewrite Nat.add_0_r. eauto.
  - rewrite filter_cons_False by done.
    destruct (list_find _ legend) as [[j p]|] eqn:Hf; simpl; [|done].
    intros [= <- <-]. destruct (IH j (S k) eq_refl) as [rest Hrest].
    exists rest. rewrite Hrest. do 2 f_equal. lia.
Qed.

(** The first row found for [v] heads the selection. *)
Lemma where_Variable_first legend v i r :
  list_find (fun r => col_Variable r = Text v) legend = Some (i, r) ->
  exists rest, Legend.where_Variable legend v = (i, r) :: rest.
Proof.
  intros Hf. apply (filter_enumerate_first legend v 0 i r Hf).
Qed.

Lemma filter_none {A} (P : A -> Prop) `{forall x, Decision (P x)} (l : list A) :
  (forall x, x ∈ l -> ~ P x) -> filter P l = [].
Proof.
  induction l as [|x l IH]; intros Hl; [done|].
  rewrite filter_cons_False by (apply Hl; left).
  apply IH. intros y Hy. apply Hl. by right.
Qed.

(** With the scalar unit missing, the unit is looked up among the three
    rows that follow the canonical row, and nowhere else. *)
Lemma resolve_unit_block legend v temporal_agg i r :
  list_find (fun r => col_Variable r = Text v) legend = Some (i, r) ->
  col_Units r = NaN ->
  unit_block legend v = inr (take 3 (drop (S i) legend))
  /\ resolve_unit legend v temporal_agg
     = try_except
         (Legend.values0
            (col_Units <$> filter (fun r => col_Variable r = Text temporal_agg)
                             (take 3 (drop (S i) legend))))
         IndexError (mret (Text "")).
Proof.
  intros [rest Hw]%where_Variable_first Hu.
  assert (unit_block legend v = inr (take 3 (drop (S i) legend))) as Hb.
  { unfold unit_block. rewrite Hw. unfold Legend.index. simpl fmap.
    rewrite getitem_0. simpl. unfold Legend.iloc_slice.
    replace (i + 4 - (i + 1))%nat with 3%nat by lia.
    by replace (i + 1)%nat with (S i) by lia. }
  split; [done|].
  unfold resolve_unit. rewrite iloc_where, Hw. simpl.
  rewrite Hu. simpl. rewrite Hb. reflexivity.
Qed.

(** The description is read in the first row found for [v]. *)
Lemma description_first legend v i r :
  list_find (fun r => col_Variable r = Text v) legend = Some (i, r) ->
  description legend v = inr (col_Description r).
Proof.
  intros [rest Hw]%where_Variable_first. unfold description. by rewrite Hw.
Qed.

End Units.

(** C3, as amended: let [v] be a canonical variable whose row has no unit,
    and let none of the three rows that follow that row in the legend, the
    rows the code takes as the unit block, carry the requested aggregation
    code.  Then the unit lookup returns normally, the unit is the empty
    string, and the attributes of a variable resolved to [v] are computed
    with that unit. *)
Theorem missing_aggregation_gives_empty_unit `{Runtime}
    (legend : list legend_row) (v temporal_agg : string) (i : nat)
    (r : legend_row) (block : list legend_row) :
  list_find (fun r => col_Variable r = Text v) legend = Some (i, r) ->
  col_Units r = NaN ->
  unit_block legend v = inr block ->
  (forall q, q ∈ block -> col_Variable q <> Text temporal_agg) ->
  resolve_unit legend v temporal_agg = inr (Text "")
  /\ variable_attrs legend temporal_agg v
     = inr [("long_name", ACell (col_Description r));
            ("units", ACell (Text ""));
            ("_FillValue", AFloat fill_value)].
Proof.
  intros Hf Hu Hb Hnone.
  assert (resolve_unit legend v temporal_agg = inr (Text "")) as Hunit.
  { destruct (resolve_unit_block legend v temporal_agg i r Hf Hu) as [Hb' ->].
    rewrite Hb in Hb'. injection Hb' as <-.
    rewrite filter_none by done. reflexivity. }
  split; [done|].
  unfold variable_attrs. rewrite Hunit. simpl.
  by rewrite (description_first legend v i r Hf).
Qed.

Lemma missing_aggregation_witness :
  resolve_unit legend_ex "TA_F_MDS" "YY" = inr (Text "")
  /\ variable_attrs legend_ex "YY" "TA_F_MDS"
     = inr [("long_name", ACell (Text "Air temperature"));
            ("units", ACell (Text ""));
            ("_FillValue", AFloat fill_value)].
Proof.
  apply (missing_aggregation_gives_empty_unit legend_ex "TA_F_MDS" "YY" 0
           {| col_Variable := Text "TA_F_MDS";
              col_Description := Text "Air temperature";
              col_Units := NaN |}
           (take 3 (drop 1 legend_ex)));
    [reflexivity | reflexivity | reflexivity |].
  apply Forall_forall. repeat constructor; discriminate.
Defined.

(** C3, as stated, fails when the variable's own unit block is shorter
    than three rows: the lookup then reads on into the rows of the next
    variable.  [TS_F_MDS] has a unit for [HH] only, its block has no entry
    for [DD], and yet the unit resolved for [DD] is the daily unit of the
    variable that follows it, [P_F]. *)
Lemma neighbour_unit_counterexample :
  list_find (fun r => col_Variable r = Text "TS_F_MDS") legend_neighbour_ex
  = Some (0%nat, {| col_Variable := Text "TS_F_MDS";
                    col_Description := Text "Soil temperature";
                    col_Units := NaN |})
  /\ spec_unit_block legend_neighbour_ex "TS_F_MDS"
     = [ {| col_Variable := Text "HH"; col_Description := NaN;
            col_Units := Text "deg C" |} ]
  /\ Forall (fun q => col_Variable q <> Text "DD")
       (spec_unit_block legend_neighbour_ex "TS_F_MDS")
  /\ unit_block legend_neighbour_ex "TS_F_MDS"
     = inr (drop 1 legend_neighbour_ex)
  /\ resolve_unit legend_neighbour_ex "TS_F_MDS" "DD" = inr (Text "mm d-1")
  /\ resolve_unit legend_neighbour_ex "P_F" "DD" = inr (Text "mm d-1").
Proof.
  assert (spec_unit_block legend_neighbour_ex "TS_F_MDS"
          = [ {| col_Variable := Text "HH"; col_Description := NaN;
                 col_Units := Text "deg C" |} ]) as Hblock by vm_refl.
  split; [vm_refl|]. split; [exact Hblock|]. split.
  { rewrite Hblock. repeat constructor. discriminate. }
  repeat split; vm_refl.
Qed.

Section Window.
Context `{Runtime}.

Lemma filter_first {A} (P : A -> Prop) `{forall x, Decision (P x)}
    (l : list A) (i : nat) (x : A) :
  list_find P l = Some (i, x) -> exists rest, filter P l = x :: rest.
Proof.
  revert i. induction l as [|y l IH]; intros i; simpl; [done|].
  destruct (decide (P y)) as [Hy|Hy].
  - intros [= <- <-]. rewrite filter_cons_True by done. eauto.
  - rewrite filter_cons_False by done.
    destruct (list_find P l) as [[j z]|]; simpl; [|done].
    intros [= <- <-]. eauto.
Qed.

Lemma window_lookup (legend : list legend_row) (i : nat) (q : legend_row) :
  q ∈ take 3 (drop (S i) legend) ->
  exists j, (i < j <= i + 3)%nat /\ legend !! j = Some q.
Proof.
  intros [k Hk]%list_elem_of_lookup.
  apply lookup_take_Some in Hk as [Hk Hlt].
  rewrite lookup_drop in Hk. exists (S i + k)%nat. split; [lia|done].
Qed.

(** X12: inside the three-row window the first row that carries the
    aggregation code gives the unit: when the row at position [j], one of
    the three after the canonical row of [v], has the code, and no row
    between the two has it, the unit of [v] is the [Units] cell of row
    [j]. *)
Lemma unit_lookup_inside_window legend v temporal_agg i r j q :
  list_find (fun r => col_Variable r = Text v) legend = Some (i, r) ->
  col_Units r = NaN ->
  (i < j <= i + 3)%nat ->
  legend !! j = Some q ->
  col_Variable q = Text temporal_agg ->
  (forall k p, (i < k < j)%nat -> legend !! k = Some p ->
               col_Variable p <> Text temporal_agg) ->
  resolve_unit legend v temporal_agg = inr (col_Units q).
Proof.
  intros Hf Hu Hj Hq Hagg Hfirst.
  destruct (resolve_unit_block legend v temporal_agg i r Hf Hu) as [_ ->].
  assert (list_find (fun r => col_Variable r = Text temporal_agg)
            (take 3 (drop (S i) legend)) = Some ((j - S i)%nat, q)) as Hfind.
  { apply list_find_Some. split; [|split; [done|]].
    - apply lookup_take_Some. split; [|lia].
      rewrite lookup_drop. by replace (S i + (j - S i))%nat with j by lia.
    - intros k p [Hk _]%lookup_take_Some Hlt. rewrite lookup_drop in Hk.
      apply (Hfirst (S i + k)%nat p); [lia|done]. }
  apply filter_first in Hfind as [rest ->]. reflexivity.
Qed.

End Window.

(** C9: let [v] be a canonical variable whose row, at position [i], has no
    unit.  The unit block is made of the rows at positions [i + 1] to
    [i + 3], as far as they exist; when every row that carries the
    requested aggregation code lies outside these positions, the unit is
    the empty string, wherever else in the legend such rows are. *)
Theorem unit_lookup_stops_after_three_rows `{Runtime}
    (legend : list legend_row) (v temporal_agg : string) (i : nat)
    (r : legend_row) :
  list_find (fun r => col_Variable r = Text v) legend = Some (i, r) ->
  col_Units r = NaN ->
  (forall j q, legend !! j = Some q -> col_Variable q = Text temporal_agg ->
               (j <= i \/ i + 3 < j)%nat) ->
  unit_block legend v = inr (take 3 (drop (S i) legend))
  /\ resolve_unit legend v temporal_agg = inr (Text "").
Proof.
  intros Hf Hu Hout.
  destruct (resolve_unit_block legend v temporal_agg i r Hf Hu) as [Hb ->].
  split; [done|].
  rewrite filter_none; [reflexivity|].
  intros q (j & Hj & Hq)%window_lookup Hagg.
  destruct (Hout j q Hq Hagg); lia.
Qed.

Lemma unit_lookup_three_rows_witness :
  legend_ex !! 7%nat
    = Some {| col_Variable := Text "YY"; col_Description := NaN;
              col_Units := Text "gC m-2 y-1" |}
  /\ unit_block legend_ex "NEE_CUT_XX" = inr (take 3 (drop 4 legend_ex))
  /\ resolve_unit legend_ex "NEE_CUT_XX" "YY" = inr (Text "").
Proof.
  split; [reflexivity|].
  apply (unit_lookup_stops_after_three_rows legend_ex "NEE_CUT_XX" "YY" 3
           {| col_Variable := Text "NEE_CUT_XX";
              col_Description := Text "Net ecosystem exchange, percentile";
              col_Units := NaN |});
    [reflexivity | reflexivity |].
  intros j q Hj Hq.
  do 8 (destruct j as [|j];
        [simpl in Hj; injection Hj as <-; first [discriminate Hq | lia]|]).
  discriminate Hj.
Defined.

(** ** [filter_output] *)

Section Filter.
Context `{Runtime}.

Lemma filter_agree {A} (P Q : A -> Prop) `{forall x, Decision (P x)}
    `{forall x, Decision (Q x)} (l : list A) :
  (forall x, x ∈ l -> P x <-> Q x) -> filter P l = filter Q l.
Proof.
  induction l as [|x l IH]; intros Hl; [done|].
  rewrite !filter_cons.
  rewrite IH by (intros y Hy; apply Hl; by right).
  destruct (decide (P x)) as [HP|HP], (decide (Q x)) as [HQ|HQ]; try done;
    exfalso; apply (Hl x) in HP || apply (Hl x) in HQ; try done; by left.
Qed.

(** Dropping the difference keeps the columns whose name is allowed. *)
Lemma df_drop_difference (df : DataFrame) (allowed : list string) :
  df_drop df (difference (columns df) allowed)
  = {| df_index := df_index df;
       df_columns := filter (fun c => c.1 ∈ allowed) (df_columns df) |}.
Proof.
  unfold df_drop. f_equal. apply filter_agree. intros [name xs] Hin. simpl.
  unfold difference. rewrite list_elem_of_filter.
  assert (name ∈ columns df) as Hname.
  { unfold columns. apply list_elem_of_fmap. by exists (name, xs). }
  split.
  - intros Hnot. destruct (decide (name ∈ allowed)); [done|].
    exfalso. apply Hnot. by split.
  - intros Ha [Hna _]. by apply Hna.
Qed.

Lemma columns_filter (df_columns : list (string * list value))
    (allowed : list string) :
  (filter (fun c : string * list value => c.1 ∈ allowed) df_columns).*1
  = filter (fun name => name ∈ allowed) df_columns.*1.
Proof.
  induction df_columns as [|[name xs] l IH]; [done|].
  rewrite fmap_cons, !filter_cons. cbn [fst].
  destruct (decide (name ∈ allowed)); [rewrite fmap_cons; cbn [fst]|];
    by rewrite IH.
Qed.

Lemma mapM_cons {A B} (f : A -> result B) (x : A) (l : list A) :
  mapM (M := result) f (x :: l)
  = (y ← f x; k ← mapM (M := result) f l; mret (y :: k)).
Proof. reflexivity. Qed.

Lemma mapM_returns {A B} (f : A -> result B) (l : list A) :
  (forall x, x ∈ l -> exists y, f x = inr y) ->
  exists ys, mapM (M := result) f l = inr ys.
Proof.
  induction l as [|x l IH]; intros Hl; [by exists []|].
  rewrite mapM_cons.
  destruct (Hl x) as [y ->]; [by left|].
  destruct IH as [ys ->]; [by intros z Hz; apply Hl; right|].
  by exists (y :: ys).
Qed.

(** When every pattern made from a name of [variable_groups.csv]
    compiles, the allowed list is computed. *)
Lemma allowed_variables_returns (vg : list group_row) (ov : list flag_row)
    (df_columns : list string) :
  (forall r, r ∈ vg ->
     exists pattern,
       re_compile (replace_char "#" "\d" (vg_Variable r)) = inr pattern) ->
  exists allowed, allowed_variables vg ov df_columns = inr allowed.
Proof.
  intros Hcompile. unfold allowed_variables. cbv zeta.
  edestruct (mapM_returns
    (fun numbered_variable =>
       pattern ← lift (re_compile (replace_char "#" "\d" numbered_variable));
       mret (filter (fun c => pattern c = true) df_columns))) as [ys ->];
    [|by eexists].
  intros x [_ (r & -> & [_ Hr]%list_elem_of_filter)%list_elem_of_fmap]
    %list_elem_of_filter.
  destruct (Hcompile r Hr) as [pattern ->]. by eexists.
Qed.

(** With the group [QUALITY FLAGS] off, no allowed name contains [QC]. *)
Lemma allowed_variables_without_QC (vg : list group_row) (ov : list flag_row)
    (df_columns allowed : list string) :
  (forall r, r ∈ ov -> ov_GROUP r = "QUALITY FLAGS" -> ov_FLAG r <> 1) ->
  allowed_variables vg ov df_columns = inr allowed ->
  forall x, x ∈ allowed -> str_contains "QC" x = false.
Proof.
  intros Hoff. unfold allowed_variables. cbv zeta.
  destruct (mapM _ _) as [e|numbered]; simpl; [done|].
  assert (contains_item "QUALITY FLAGS"
            (ov_GROUP <$> filter (fun r => ov_FLAG r = 1) ov) = false) as ->.
  { unfold contains_item. apply bool_decide_eq_false.
    intros (r & Hr & [Hflag Hin]%list_elem_of_filter)%list_elem_of_fmap.
    by apply (Hoff r Hin). }
  simpl. intros [= <-] x. by intros [Hx _]%list_elem_of_filter.
Qed.

(** When its two tables can be read and the allowed list is computed,
    [filter_output] returns, after two reads, the table cut down to the
    allowed names. *)
Lemma filter_output_returns (w : World) (vg : list group_row)
    (ov : list flag_row) (df : DataFrame) (allowed : list string)
    (log : list event) :
  read_variable_groups w = inr vg ->
  read_output_variables w = inr ov ->
  allowed_variables vg ov (columns df) = inr allowed ->
  filter_output w df log
  = (inr {| df_index := df_index df;
            df_columns := filter (fun c => c.1 ∈ allowed) (df_columns df) |},
     log ++ [ReadCsv "doc/variable_groups.csv"; ReadCsv "output_variables.csv"]).
Proof.
  intros Hvg Hov Hallowed.
  unfold filter_output, mbind, IO_bind, io_bind, io_call, io_lift.
  rewrite Hvg, Hov. simpl. rewrite Hallowed. unfold mret, IO_ret, io_ret.
  rewrite df_drop_difference, <- app_assoc. reflexivity.
Qed.

End Filter.

(** C4: when no row of [output_variables.csv] switches the group
    [QUALITY FLAGS] on, [filter_output] computes an allowed list in which
    no name contains [QC], whatever the other groups are and whatever the
    wildcard expansion matched among the columns, and no column that it
    keeps has such a name.  The two tables are taken to be readable and the
    patterns made from [variable_groups.csv] to compile. *)
Theorem quality_flags_off_excludes_every_QC_name `{Runtime}
    (w : World) (vg : list group_row) (ov : list flag_row) (df : DataFrame)
    (log : list event) :
  (forall r, r ∈ ov -> ov_GROUP r = "QUALITY FLAGS" -> ov_FLAG r <> 1) ->
  read_variable_groups w = inr vg ->
  read_output_variables w = inr ov ->
  (forall r, r ∈ vg ->
     exists pattern,
       re_compile (replace_char "#" "\d" (vg_Variable r)) = inr pattern) ->
  exists allowed df' log',
    allowed_variables vg ov (columns df) = inr allowed
    /\ (forall x, x ∈ allowed -> str_contains "QC" x = false)
    /\ filter_output w df log = (inr df', log')
    /\ forall c, c ∈ columns df' -> str_contains "QC" c = false.
Proof.
  intros Hoff Hvg Hov Hcompile.
  destruct (allowed_variables_returns vg ov (columns df) Hcompile)
    as [allowed Hallowed].
  pose proof (allowed_variables_without_QC vg ov _ allowed Hoff Hallowed)
    as Hclean.
  eexists allowed, _, _. split; [done|]. split; [done|].
  split; [by apply (filter_output_returns w vg ov df allowed)|].
  intros c. unfold columns at 1. simpl. rewrite columns_filter.
  intros [Hc _]%list_elem_of_filter. by apply Hclean.
Qed.

Lemma quality_flags_off_witness :
  exists allowed df' log',
    allowed_variables variable_groups_ex output_variables_ex
      (columns station_ex) = inr allowed
    /\ (forall x, x ∈ allowed -> str_contains "QC" x = false)
    /\ filter_output (world_ex []) station_ex [] = (inr df', log')
    /\ forall c, c ∈ columns df' -> str_contains "QC" c = false.
Proof.
  apply (quality_flags_off_excludes_every_QC_name (world_ex [])
           variable_groups_ex output_variables_ex station_ex []);
    [|reflexivity|reflexivity|].
  - apply (Forall_forall
             (fun r => ov_GROUP r = "QUALITY FLAGS" -> ov_FLAG r <> 1)).
    repeat first [apply List.Forall_nil | apply List.Forall_cons];
      simpl; intros Hgroup; first [discriminate Hgroup | discriminate].
  - intros r _. eexists. reflexivity.
Defined.

(** In [station_ex] the pattern of [SWC_F_MDS_#] also matches the column
    [SWC_F_MDS_1_QC]; the exclusion, which comes last, removes it. *)
Example wildcard_QC_ex :
  filter (fun c => match_here (replace_char "#" "\d" "SWC_F_MDS_#") c = true)
    (columns station_ex) = ["SWC_F_MDS_1"; "SWC_F_MDS_1_QC"]
  /\ allowed_variables variable_groups_ex output_variables_ex (columns station_ex)
     = inr ["TA_F_MDS"; "SWC_F_MDS_#"; "NEE_CUT_50"; "P_F"; "SWC_F_MDS_1"].
Proof. split; vm_compute; reflexivity. Qed.

(** C5: [filter_output] returns a table whose columns are the columns of
    the input, in their order and with their values, whose name is in the
    allowed list: the column set is the intersection of the two and a
    subset of the input's; a column outside the list is dropped and a name
    of the list that is no column adds nothing.  The two tables are taken
    to be readable and the patterns made from [variable_groups.csv] to
    compile. *)
Theorem filter_output_keeps_the_intersection `{Runtime}
    (w : World) (vg : list group_row) (ov : list flag_row) (df : DataFrame)
    (log : list event) :
  read_variable_groups w = inr vg ->
  read_output_variables w = inr ov ->
  (forall r, r ∈ vg ->
     exists pattern,
       re_compile (replace_char "#" "\d" (vg_Variable r)) = inr pattern) ->
  exists allowed df',
    allowed_variables vg ov (columns df) = inr allowed
    /\ filter_output w df log
       = (inr df',
          log ++ [ReadCsv "doc/variable_groups.csv";
                  ReadCsv "output_variables.csv"])
    /\ columns df' = filter (fun c => c ∈ allowed) (columns df)
    /\ (forall c, c ∈ columns df' <-> c ∈ columns df /\ c ∈ allowed)
    /\ columns df' ⊆ columns df
    /\ df_columns df' ⊆ df_columns df.
Proof.
  intros Hvg Hov Hcompile.
  destruct (allowed_variables_returns vg ov (columns df) Hcompile)
    as [allowed Hallowed].
  eexists allowed, _. split; [done|].
  split; [by apply (filter_output_returns w vg ov df allowed)|].
  assert (columns
            {| df_index := df_index df;
               df_columns :=
                 filter (fun c => c.1 ∈ allowed) (df_columns df) |}
          = filter (fun c => c ∈ allowed) (columns df)) as Hcols.
  { unfold columns at 1. simpl. apply columns_filter. }
  split; [exact Hcols|]. rewrite Hcols. simpl.
  split; [|split].
  - intros c. rewrite list_elem_of_filter. tauto.
  - intros c [_ Hc]%list_elem_of_filter. done.
  - intros c [_ Hc]%list_elem_of_filter. done.
Qed.

Lemma filter_output_intersection_witness :
  exists allowed df',
    allowed_variables variable_groups_ex output_variables_ex
      (columns station_ex) = inr allowed
    /\ filter_output (world_ex []) station_ex []
       = (inr df',
          [] ++ [ReadCsv "doc/variable_groups.csv";
                 ReadCsv "output_variables.csv"])
    /\ columns df' = filter (fun c => c ∈ allowed) (columns station_ex)
    /\ (forall c, c ∈ columns df' <-> c ∈ columns station_ex /\ c ∈ allowed)
    /\ columns df' ⊆ columns station_ex
    /\ df_columns df' ⊆ df_columns station_ex.
Proof.
  apply (filter_output_keeps_the_intersection (world_ex [])
           variable_groups_ex output_variables_ex station_ex []);
    [reflexivity|reflexivity|].
  intros r _. eexists. reflexivity.
Defined.

Example filter_output_ex :
  filter_output (world_ex []) station_ex []
  = (inr {| df_index := None;
            df_columns :=
              [("TA_F_MDS", [inl 3; inl 4]);
               ("NEE_CUT_50", [inl 1; inl 2]);
               ("SWC_F_MDS_1", [inl 30; inl 31])] |},
     [ReadCsv "doc/variable_groups.csv"; ReadCsv "output_variables.csv"]).
Proof. vm_compute. reflexivity. Qed.

(** ** [check_date_format] *)

(** C10: for a table whose time column has a first entry, the format is
    decided by the width of [str] of that entry: ['%Y'] for 4, ['%Y%m%d']
    for 8, ['%Y%m%d%H%M'] for 12; for every other width the function
    returns nothing, it raises [UnboundLocalError] on reading the local
    [date_format] that no branch assigned. *)
Theorem check_date_format_by_width `{Runtime}
    (dframe : DataFrame) (time_col_name : string) (x : value)
    (rest : list value) :
  assoc time_col_name (df_columns dframe) = Some (x :: rest) ->
  (String.length (py_str x) = 4%nat ->
     check_date_format dframe time_col_name = inr "%Y")
  /\ (String.length (py_str x) = 8%nat ->
        check_date_format dframe time_col_name = inr "%Y%m%d")
  /\ (String.length (py_str x) = 12%nat ->
        check_date_format dframe time_col_name = inr "%Y%m%d%H%M")
  /\ (String.length (py_str x) <> 4%nat ->
      String.length (py_str x) <> 8%nat ->
      String.length (py_str x) <> 12%nat ->
        check_date_format dframe time_col_name = raise UnboundLocalError).
Proof.
  intros Hcol. unfold check_date_format, df_getitem. rewrite Hcol. simpl.
  repeat split; intros; repeat case_decide; try done; lia.
Qed.

Lemma check_date_format_witness :
  check_date_format station_ex "TIMESTAMP" = inr "%Y%m%d"
  /\ check_date_format (column_ex "TIMESTAMP" [200201]) "TIMESTAMP"
     = raise UnboundLocalError.
Proof.
  split.
  - apply (proj1 (proj2 (check_date_format_by_width station_ex "TIMESTAMP"
                           (inl 20020101) [inl 20020102] eq_refl))).
    reflexivity.
  - apply (proj2 (proj2 (proj2 (check_date_format_by_width
             (column_ex "TIMESTAMP" [200201]) "TIMESTAMP" (inl 200201) []
             eq_refl))));
      vm_compute; discriminate.
Defined.

Example check_date_format_ex :
  check_date_format (column_ex "TIMESTAMP" [2002]) "TIMESTAMP" = inr "%Y"
  /\ check_date_format (column_ex "TIMESTAMP_START" [200201010030])
       "TIMESTAMP_START" = inr "%Y%m%d%H%M"
  /\ check_date_format (column_ex "TIMESTAMP" []) "TIMESTAMP" = raise KeyError.
Proof. repeat split; vm_compute; reflexivity. Qed.

(** ** [find_flux_file] *)

Section Find.
Context `{Runtime}.

(** With a valid set type, a listing in which the site code matches no
    entry, or more than one, ends the search at [raise SiteCodeError]: the
    class is called without its [site], and that call raises. *)
Lemma find_flux_file_site_count (w : World)
    (path site temporal_agg settype : string) (entries : list string)
    (log : list event) :
  settype ∈ ["FULLSET"; "SUBSET"] ->
  os_listdir w path = inr entries ->
  length (filter (fun dir => str_contains site dir = true) entries) <> 1%nat ->
  find_flux_file w path site temporal_agg settype log
  = (raise TypeError, log ++ [Listdir path]).
Proof.
  intros Hset Hls Hcount. unfold find_flux_file, contains_item.
  rewrite bool_decide_eq_true_2 by done. simpl.
  unfold mbind, IO_bind, io_bind, io_call. rewrite Hls. simpl.
  rewrite bool_decide_eq_true_2 by done. reflexivity.
Qed.

End Find.

(** C7: with no directory, or with more than one, for the site code,
    [find_flux_file] should raise [SiteCodeError].  What it raises is the
    [TypeError] of calling [SiteCodeError] without its argument [site]; no
    path is returned.  Line 127 raises the class the intended way,
    [SiteCodeError(site)].  With exactly one directory the path is found. *)
Theorem find_flux_file_raises_TypeError :
  find_flux_file (world_ex []) "data/" "AT-Neu" "DD" "FULLSET" []
  = (raise TypeError, [Listdir "data/"])
  /\ find_flux_file
       (world_ex ["FLX_AT-Neu_FLUXNET2015_FULLSET_2002-2012_1-4";
                  "FLX_AT-Neu_FLUXNET2015_SUBSET_2002-2012_1-4"])
       "data/" "AT-Neu" "DD" "FULLSET" []
     = (raise TypeError, [Listdir "data/"])
  /\ find_flux_file
       (world_ex ["FLX_AT-Neu_FLUXNET2015_FULLSET_2002-2012_1-4";
                  "FLX_CH-Cha_FLUXNET2015_FULLSET_2005-2014_2-4"])
       "data/" "AT-Neu" "DD" "FULLSET" []
     = (inr "FLX_AT-Neu_FLUXNET2015_FULLSET_2002-2012_1-4/FLX_AT-Neu_FLUXNET2015_FULLSET_DD_2002-2012_1-4.csv",
        [Listdir "data/";
         Glob "data/FLX_AT-Neu_FLUXNET2015_FULLSET_2002-2012_1-4/*.csv"]).
Proof. repeat split; vm_compute; reflexivity. Qed.

(** ** Where [TemporalResolutionError] can come from *)

Section Other.
Context `{Runtime}.

Lemma other_builtin (b : builtin_exn) : other b.
Proof. intros a. discriminate. Qed.

Lemma other_SetTypeError s : other (SetTypeError s).
Proof. intros a. discriminate. Qed.

Lemma other_SiteCodeError s : other (SiteCodeError s).
Proof. intros a. discriminate. Qed.

Lemma raises_other_ret {A} (x : A) : raises_other (mret x).
Proof. intros e. discriminate. Qed.

Lemma raises_other_inr {A} (x : A) : raises_other (inr x).
Proof. intros e. discriminate. Qed.

Lemma raises_other_raise {A} (e : exn) : other e -> raises_other (@raise A e).
Proof. intros He e' [= <-]. done. Qed.

Lemma raises_other_bind {A B} (m : result A) (k : A -> result B) :
  raises_other m -> (forall x, raises_other (k x)) -> raises_other (m ≫= k).
Proof.
  intros Hm Hk e. destruct m as [e'|x]; simpl.
  - intros [= <-]. by apply Hm.
  - apply Hk.
Qed.

Lemma raises_other_lift {A} (m : lib_result A) : raises_other (lift m).
Proof. intros e. destruct m; simpl; [|done]. intros [= <-] a. discriminate. Qed.

Lemma raises_other_getitem {A} (l : list A) (i : Z) : raises_other (getitem l i).
Proof.
  intros e. unfold getitem.
  repeat case_decide; repeat case_match; try done;
    intros [= <-]; apply other_builtin.
Qed.

Lemma raises_other_local {A} (x : option A) : raises_other (local x).
Proof. destruct x; [apply raises_other_ret|]. by intros e [= <-] a. Qed.

Lemma raises_other_try_except {A} (m h : result A) (e : exn) :
  raises_other m -> raises_other h -> raises_other (try_except m e h).
Proof.
  intros Hm Hh e'. destruct m as [e''|x]; simpl; [|done].
  case_decide; [apply Hh|]. intros [= <-]. by apply Hm.
Qed.

Lemma raises_other_for_each {S A} (body : S -> A -> result S) (l : list A) (s : S) :
  (forall s x, raises_other (body s x)) -> raises_other (for_each body l s).
Proof.
  intros Hbody. revert s. induction l as [|x l IH]; intros s; simpl.
  - apply raises_other_ret.
  - apply raises_other_bind; [apply Hbody|apply IH].
Qed.

Lemma raises_other_filter_r {A} (p : A -> result bool) (l : list A) :
  (forall x, raises_other (p x)) -> raises_other (filter_r p l).
Proof.
  intros Hp. induction l as [|x l IH]; simpl.
  - apply raises_other_ret.
  - apply raises_other_bind; [apply Hp|]. intros b.
    apply raises_other_bind; [apply IH|]. intros l'. apply raises_other_ret.
Qed.

Lemma raises_other_iloc legend positions :
  raises_other (Legend.iloc legend positions).
Proof.
  induction positions as [|i l IH]; [apply raises_other_ret|].
  rewrite iloc_cons. apply raises_other_bind.
  - destruct (legend !! i); [apply raises_other_ret|].
    apply raises_other_raise, other_builtin.
  - intros r. apply raises_other_bind; [apply IH|].
    intros k. apply raises_other_ret.
Qed.

Lemma raises_other_mapM {A B} (f : A -> result B) (l : list A) :
  (forall x, raises_other (f x)) -> raises_other (mapM (M := result) f l).
Proof.
  intros Hf. induction l as [|x l IH]; [apply raises_other_ret|].
  rewrite mapM_cons. apply raises_other_bind; [apply Hf|].
  intros y. apply raises_other_bind; [apply IH|].
  intros k. apply raises_other_ret.
Qed.

Lemma raises_other_raise_class {A} :
  raises_other (@raise_class A SiteCodeError_call).
Proof. intros e [= <-]. apply other_builtin. Qed.

Lemma io_raises_other_lift {A} (m : result A) :
  raises_other m -> io_raises_other (io_lift m).
Proof. intros Hm log e log' [= -> _]. by apply Hm. Qed.

Lemma io_raises_other_ret {A} (x : A) : io_raises_other (mret x).
Proof. intros log e log'. discriminate. Qed.

Lemma io_raises_other_call {A} (ev : event) (answer : lib_result A) :
  io_raises_other (io_call ev answer).
Proof.
  intros log e log'. unfold io_call. intros [= He _].
  by apply (raises_other_lift answer).
Qed.

Lemma io_raises_other_bind {A B} (m : IO A) (k : A -> IO B) :
  io_raises_other m -> (forall x, io_raises_other (k x)) ->
  io_raises_other (m ≫= k).
Proof.
  intros Hm Hk log e log'. unfold mbind, IO_bind, io_bind.
  destruct (m log) as [[e'|x] l] eqn:Hrun.
  - intros [= <- <-]. by apply (Hm log e' l).
  - apply Hk.
Qed.

Lemma io_raises_other_reraise {A} (m : IO A) (caught : list exn) (e : exn) :
  io_raises_other m -> other e -> io_raises_other (io_reraise m caught e).
Proof.
  intros Hm He log e' log'. unfold io_reraise.
  destruct (m log) as [[e''|x] l] eqn:Hrun; [|done].
  intros [= <- <-]. case_bool_decide; [done|]. by apply (Hm log e'' l).
Qed.

Lemma io_raises_other_pass (m : IO unit) (e : exn) :
  io_raises_other m -> io_raises_other (io_pass m e).
Proof.
  intros Hm log e' log'. unfold io_pass.
  destruct (m log) as [[e''|x] l] eqn:Hrun; [|done].
  case_decide; [done|]. intros [= <- <-]. by apply (Hm log e'' l).
Qed.

End Other.

Create HintDb other.

#[export] Hint Resolve other_builtin other_SetTypeError other_SiteCodeError
  raises_other_ret raises_other_inr raises_other_raise raises_other_lift
  raises_other_getitem raises_other_local raises_other_iloc
  raises_other_raise_class io_raises_other_ret io_raises_other_call
  io_raises_other_lift : other.

(** Goes through a computation, bind by bind and branch by branch. *)
Ltac other_step :=
  first
    [ apply raises_other_bind; [|intros ?]
    | apply io_raises_other_bind; [|intros ?]
    | apply raises_other_try_except
    | apply raises_other_for_each; intros ? ?
    | apply raises_other_filter_r; intros ?
    | apply raises_other_mapM; intros ?
    | apply io_raises_other_reraise
    | apply io_raises_other_pass
    | solve [eauto with other]
    | apply io_raises_other_lift
    | match goal with
      | |- raises_other (if ?b then _ else _) => destruct b
      | |- io_raises_other (if ?b then _ else _) => destruct b
      | |- raises_other (match ?x with _ => _ end) => destruct x
      | |- io_raises_other (match ?x with _ => _ end) => destruct x
      end ].

Ltac other_all := cbv zeta; repeat other_step.

Section OtherProgram.
Context `{Runtime}.

Lemma raises_other_set_attributes legend temporal_agg ds :
  raises_other (set_attributes legend temporal_agg ds).
Proof.
  unfold set_attributes, set_variable_attrs, variable_attrs, assign_v,
    resolve_unit, unit_block, description, np_isnan, Legend.values0.
  other_all.
Qed.

Lemma raises_other_annotate w legend m path site temporal_agg settype df :
  raises_other (annotate w legend m path site temporal_agg settype df).
Proof.
  unfold annotate. cbv zeta.
  apply raises_other_bind; [apply raises_other_set_attributes|intros ?].
  unfold add_coordinates, set_global_attrs, metadata_loc. other_all.
Qed.

Lemma io_raises_other_find_flux_file w path site temporal_agg settype :
  io_raises_other (find_flux_file w path site temporal_agg settype).
Proof. unfold find_flux_file. other_all. Qed.

Lemma io_raises_other_filter_output w df :
  io_raises_other (filter_output w df).
Proof. unfold filter_output, allowed_variables. other_all. Qed.

(** Past its first test, [flux2netcdf] raises no [TemporalResolutionError]. *)
Lemma flux2netcdf_valid_raises_other w legend site_info path site temporal_agg
    settype :
  contains_item temporal_agg ["HH"; "DD"; "WW"; "YY"] = true ->
  io_raises_other (flux2netcdf w legend site_info path site temporal_agg settype).
Proof.
  intros Hvalid. unfold flux2netcdf. rewrite Hvalid. simpl negb. cbv iota.
  apply io_raises_other_bind; [apply io_raises_other_find_flux_file|intros ?].
  apply io_raises_other_bind.
  { unfold site_info_loc. other_all. }
  intros ?. cbv zeta.
  apply io_raises_other_bind.
  { unfold time_column, df_drop_column. other_all. }
  intros ?.
  apply io_raises_other_bind.
  { unfold check_date_format, df_getitem, series_getitem0. other_all. }
  intros ?.
  apply io_raises_other_bind.
  { unfold set_time_index, df_getitem. other_all. }
  intros ?.
  apply io_raises_other_bind; [apply io_raises_other_filter_output|intros ?].
  apply io_raises_other_bind.
  { apply io_raises_other_lift, raises_other_annotate. }
  intros ?. other_all.
Qed.

End OtherProgram.

(** C6: [flux2netcdf] raises [TemporalResolutionError] exactly when
    [temporal_agg] is none of ['HH'], ['DD'], ['WW'], ['YY']; the exception
    then carries the rejected code, and the log of file-system calls is what
    it was on entry: no directory was listed and no file read or written. *)
Theorem TemporalResolutionError_iff_invalid_aggregation `{Runtime}
    (w : World) (legend : list legend_row) (site_info : list site_row)
    (path site temporal_agg settype : string) (log : list event) :
  ((exists a log',
      flux2netcdf w legend site_info path site temporal_agg settype log
      = (raise (TemporalResolutionError a), log'))
   <-> temporal_agg ∉ ["HH"; "DD"; "WW"; "YY"])
  /\ (temporal_agg ∉ ["HH"; "DD"; "WW"; "YY"] ->
      flux2netcdf w legend site_info path site temporal_agg settype log
      = (raise (TemporalResolutionError temporal_agg), log)).
Proof.
  assert (temporal_agg ∉ ["HH"; "DD"; "WW"; "YY"] ->
          flux2netcdf w legend site_info path site temporal_agg settype log
          = (raise (TemporalResolutionError temporal_agg), log)) as Hraise.
  { intros Hnot. unfold flux2netcdf, contains_item.
    rewrite bool_decide_eq_false_2 by done. reflexivity. }
  split; [split|exact Hraise].
  - intros (a & log' & Hrun) Hvalid.
    eapply (flux2netcdf_valid_raises_other w legend site_info path site
              temporal_agg settype); [|exact Hrun|reflexivity].
    unfold contains_item. by apply bool_decide_eq_true.
  - intros Hnot. eexists _, _. by apply Hraise.
Qed.

Example flux2netcdf_invalid_aggregation_ex :
  flux2netcdf (world_ex []) legend_ex site_info_ex "data/" "AT-Neu" "MM"
    "FULLSET" []
  = (raise (TemporalResolutionError "MM"), []).
Proof. reflexivity. Qed.

(** ** The attributes of the annotated dataset *)

Section Attributes.
Context `{Runtime}.

Lemma variable_attrs_shape legend temporal_agg v a :
  variable_attrs legend temporal_agg v = inr a -> data_attrs a.
Proof.
  unfold variable_attrs.
  destruct (resolve_unit legend v temporal_agg) as [e|unit]; simpl; [done|].
  destruct (description legend v) as [e|long_name]; simpl; [done|].
  intros [= <-]. by exists long_name, unit.
Qed.

Lemma elem_of_set_attrs ds name a n da :
  (n, da) ∈ ds_data_vars (set_attrs ds name a) ->
  exists da0,
    (n, da0) ∈ ds_data_vars ds
    /\ da = if decide (n = name)
            then {| da_data := da_data da0; da_attrs := a |}
            else da0.
Proof.
  unfold set_attrs; simpl.
  intros ([k da0] & Heq & Hin)%list_elem_of_fmap. simpl in Heq.
  destruct (decide (k = name)) as [->|Hk]; injection Heq as -> ->.
  - exists da0. by rewrite decide_True.
  - exists da0. by rewrite decide_False.
Qed.

Lemma elem_of_setitem ds name x n da :
  (n, da) ∈ ds_data_vars (setitem ds name x) ->
  (n = name /\ da = {| da_data := Scalar x; da_attrs := [] |})
  \/ (n <> name /\ (n, da) ∈ ds_data_vars ds).
Proof.
  unfold setitem; simpl. case_bool_decide as Hin.
  - intros ([k da0] & Heq & Hk)%list_elem_of_fmap. simpl in Heq.
    destruct (decide (k = name)) as [->|Hne]; injection Heq as -> ->.
    + by left.
    + by right.
  - intros [Hold|Hnew%list_elem_of_singleton]%elem_of_app.
    + right. split; [|done]. intros ->. apply Hin.
      apply list_elem_of_fmap. by exists (name, da).
    + injection Hnew as -> ->. by left.
Qed.

Lemma setitem_names ds name x :
  name ∈ (ds_data_vars (setitem ds name x)).*1
  /\ forall n, n ∈ (ds_data_vars ds).*1 -> n ∈ (ds_data_vars (setitem ds name x)).*1.
Proof.
  unfold setitem; simpl. case_bool_decide as Hin.
  - assert (((fun kv : string * DataArray =>
                if decide (kv.1 = name)
                then (kv.1, {| da_data := Scalar x; da_attrs := [] |})
                else kv) <$> ds_data_vars ds).*1 = (ds_data_vars ds).*1) as ->.
    { rewrite <- list_fmap_compose. apply list_fmap_ext.
      intros i [k da] _. simpl. by destruct (decide (k = name)). }
    done.
  - rewrite fmap_app. simpl. split.
    + apply elem_of_app. right. by left.
    + intros n Hn. apply elem_of_app. by left.
Qed.

(** After the loop every data variable has the three attributes. *)
Lemma set_attributes_shape legend temporal_agg ds ds' :
  set_attributes legend temporal_agg ds = inr ds' ->
  forall n da, (n, da) ∈ ds_data_vars ds' -> data_attrs (da_attrs da).
Proof.
  unfold set_attributes.
  destruct (for_each _ _ _) as [e|st] eqn:Hloop; simpl; [done|].
  intros [= <-].
  apply (for_each_invariant _
           (fun done st =>
              (ds_data_vars (loc_ds st)).*1 = (ds_data_vars ds).*1
              /\ forall n da, (n, da) ∈ ds_data_vars (loc_ds st) ->
                              n ∈ done -> data_attrs (da_attrs da)))
    in Hloop.
  - destruct Hloop as [Hnames Hshape]. intros n da Hin.
    apply (Hshape n da Hin). rewrite <- Hnames.
    apply list_elem_of_fmap. by exists (n, da).
  - split; [done|]. by intros n da _ ?%elem_of_nil.
  - intros done x s t [Hnames Hshape]
      (v & a & Ha%variable_attrs_shape & ->)%set_variable_attrs_inr.
    cbn [loc_ds]. split; [by rewrite set_attrs_names|].
    intros n da (da0 & Hin & ->)%elem_of_set_attrs Hn.
    destruct (decide (n = x)) as [->|Hne]; [done|].
    apply (Hshape n da0 Hin).
    apply elem_of_app in Hn as [Hn|Hn%list_elem_of_singleton]; done.
Qed.

End Attributes.

Section Annotate.
Context `{Runtime}.

Lemma to_xarray_names (df : DataFrame) :
  (ds_data_vars (to_xarray df)).*1 = columns df.
Proof.
  unfold to_xarray, columns; simpl. rewrite <- list_fmap_compose.
  apply list_fmap_ext. by intros i [name xs] _.
Qed.

Lemma assoc_elem_of {V} (k : string) (d : list (string * V)) :
  k ∈ d.*1 -> exists x, assoc k d = Some x /\ (k, x) ∈ d.
Proof.
  induction d as [|[k' x] d IH]; simpl.
  - by intros ?%elem_of_nil.
  - destruct (decide (k' = k)) as [->|Hne].
    + intros _. exists x. split; [done|by left].
    + intros [?|Hin]%elem_of_cons; [done|].
      destruct (IH Hin) as (y & Hy & Hiny). exists y. split; [done|by right].
Qed.

(** What lines 174-179 leave in the dataset. *)
Lemma add_coordinates_inr (m : metadata) (ds ds' : Dataset) :
  add_coordinates m ds = inr ds' ->
  exists x y,
    metadata_loc m si_lon = inr x
    /\ metadata_loc m si_lat = inr y
    /\ "lon" ∈ (ds_data_vars ds').*1
    /\ "lat" ∈ (ds_data_vars ds').*1
    /\ (forall n, n ∈ (ds_data_vars ds).*1 -> n ∈ (ds_data_vars ds').*1)
    /\ forall n da, (n, da) ∈ ds_data_vars ds' ->
         if decide (n = "lon")
         then da = {| da_data := Scalar x; da_attrs := lon_attrs |}
         else if decide (n = "lat")
         then da = {| da_data := Scalar y; da_attrs := lat_attrs |}
         else (n, da) ∈ ds_data_vars ds.
Proof.
  unfold add_coordinates.
  destruct (metadata_loc m si_lon) as [e|x]; simpl; [done|].
  destruct (metadata_loc m si_lat) as [e|y]; simpl; [done|].
  intros [= <-]. rewrite !set_attrs_names. exists x, y.
  destruct (setitem_names ds "lon" x) as [Hlon Hkeep].
  destruct (setitem_names (setitem ds "lon" x) "lat" y) as [Hlat Hkeep'].
  repeat split; [by apply Hkeep'|done|by intros n Hn; apply Hkeep', Hkeep|].
  intros n da (da4 & Hin4 & ->)%elem_of_set_attrs.
  apply elem_of_set_attrs in Hin4 as (da3 & Hin3 & ->).
  apply elem_of_setitem in Hin3 as [[-> ->]|[Hnlat Hin2]].
  { repeat case_decide; done. }
  apply elem_of_setitem in Hin2 as [[-> ->]|[Hnlon Hin1]].
  { repeat case_decide; done. }
  repeat case_decide; done.
Qed.

End Annotate.

(** C8: in every dataset that [annotate] returns, each column of the
    filtered table is a data variable; a data variable other than the two
    coordinate fields is such a column and carries a description, a unit
    and the fill value -9999.0, and nothing else; the fields [lon] and
    [lat] are present, hold the scalar longitude and latitude of the site,
    and carry their standard name, long name, unit ([degrees_east],
    [degrees_north]) and [False] as fill value. *)
Theorem annotated_dataset_fill_values `{Runtime}
    (w : World) (legend : list legend_row) (m : metadata)
    (path site temporal_agg settype : string) (df : DataFrame) (ds : Dataset) :
  annotate w legend m path site temporal_agg settype df = inr ds ->
  (forall name, name ∈ columns df -> name ∈ (ds_data_vars ds).*1)
  /\ (forall name da, (name, da) ∈ ds_data_vars ds ->
        if decide (name = "lon") then da_attrs da = lon_attrs
        else if decide (name = "lat") then da_attrs da = lat_attrs
        else name ∈ columns df
             /\ data_attrs (da_attrs da)
             /\ dict_get (da_attrs da) "_FillValue" = Some (AFloat fill_value))
  /\ (exists x, metadata_loc m si_lon = inr x
                /\ ds_get ds "lon"
                   = Some {| da_data := Scalar x; da_attrs := lon_attrs |})
  /\ (exists y, metadata_loc m si_lat = inr y
                /\ ds_get ds "lat"
                   = Some {| da_data := Scalar y; da_attrs := lat_attrs |})
  /\ fill_value = (-9999.0)%float
  /\ lon_attrs = [("standard_name", ACell (Text "longitude"));
                  ("long_name", ACell (Text "longitude coordinate"));
                  ("units", ACell (Text "degrees_east"));
                  ("_FillValue", ABool false)]
  /\ lat_attrs = [("standard_name", ACell (Text "latitude"));
                  ("long_name", ACell (Text "latitude coordinate"));
                  ("units", ACell (Text "degrees_north"));
                  ("_FillValue", ABool false)].
Proof.
  unfold annotate. cbv zeta.
  destruct (set_attributes legend temporal_agg (to_xarray df)) as [e|ds1]
    eqn:Hloop; simpl; [done|].
  destruct (add_coordinates m ds1) as [e|ds2] eqn:Hcoord; simpl; [done|].
  apply add_coordinates_inr in Hcoord
    as (x & y & Hx & Hy & Hlon & Hlat & Hkeep & Hin).
  unfold set_global_attrs. rewrite Hx, Hy.
  destruct (metadata_loc m si_country); simpl; [done|].
  destruct (metadata_loc m si_elev); simpl; [done|].
  destruct (metadata_loc m si_pft); simpl; [done|].
  intros [= <-]. unfold ds_get. simpl.
  pose proof (set_attributes_keeps_names _ _ _ _ Hloop) as Hnames.
  rewrite to_xarray_names in Hnames.
  pose proof (set_attributes_shape _ _ _ _ Hloop) as Hshape.
  split; [|split; [|split; [|split]]].
  - intros name Hname. apply Hkeep. by rewrite Hnames.
  - intros name da Hda. specialize (Hin name da Hda).
    destruct (decide (name = "lon")); [by subst da|].
    destruct (decide (name = "lat")); [by subst da|].
    split; [|split].
    + rewrite <- Hnames. apply list_elem_of_fmap. by exists (name, da).
    + by apply (Hshape name da).
    + destruct (Hshape name da Hin) as (long_name & unit & ->). reflexivity.
  - apply assoc_elem_of in Hlon as (da & Hget & Hda). exists x.
    split; [done|]. rewrite Hget. f_equal. by apply (Hin "lon" da Hda).
  - apply assoc_elem_of in Hlat as (da & Hget & Hda). exists y.
    split; [done|]. rewrite Hget. f_equal. by apply (Hin "lat" da Hda).
  - done.
Qed.

Lemma annotated_dataset_witness :
  exists ds,
    annotate (world_ex []) legend_ex metadata_ex "data/" "AT-Neu" "DD" "FULLSET"
      retained_ex = inr ds
    /\ (forall name, name ∈ columns retained_ex -> name ∈ (ds_data_vars ds).*1)
    /\ (forall name da, (name, da) ∈ ds_data_vars ds ->
          if decide (name = "lon") then da_attrs da = lon_attrs
          else if decide (name = "lat") then da_attrs da = lat_attrs
          else name ∈ columns retained_ex
               /\ data_attrs (da_attrs da)
               /\ dict_get (da_attrs da) "_FillValue" = Some (AFloat fill_value))
    /\ (exists x, metadata_loc metadata_ex si_lon = inr x
                  /\ ds_get ds "lon"
                     = Some {| da_data := Scalar x; da_attrs := lon_attrs |})
    /\ (exists y, metadata_loc metadata_ex si_lat = inr y
                  /\ ds_get ds "lat"
                     = Some {| da_data := Scalar y; da_attrs := lat_attrs |})
    /\ fill_value = (-9999.0)%float
    /\ lon_attrs = [("standard_name", ACell (Text "longitude"));
                    ("long_name", ACell (Text "longitude coordinate"));
                    ("units", ACell (Text "degrees_east"));
                    ("_FillValue", ABool false)]
    /\ lat_attrs = [("standard_name", ACell (Text "latitude"));
                    ("long_name", ACell (Text "latitude coordinate"));
                    ("units", ACell (Text "degrees_north"));
                    ("_FillValue", ABool false)].
Proof.
  exists annotated_ex. split; [vm_refl|].
  apply (annotated_dataset_fill_values (world_ex []) legend_ex metadata_ex
           "data/" "AT-Neu" "DD" "FULLSET" retained_ex).
  vm_refl.
Defined.

(** A whole conversion: the dataset handed to [to_netcdf] is the one
    [annotate] returns for the filtered table. *)
Example flux2netcdf_ex :
  let w := world_ex ["FLX_AT-Neu_FLUXNET2015_FULLSET_2002-2012_1-4";
                     "FLX_CH-Cha_FLUXNET2015_FULLSET_2005-2014_2-4"] in
  exists ds,
    annotate w legend_ex metadata_ex "data/" "AT-Neu" "DD" "FULLSET"
      {| df_index := Some ("time", [inl 20020101; inl 20020102]);
         df_columns :=
           [("TA_F_MDS", [inl 3; inl 4]);
            ("NEE_CUT_50", [inl 1; inl 2]);
            ("SWC_F_MDS_1", [inl 30; inl 31])] |} = inr ds
    /\ flux2netcdf w legend_ex site_info_ex "data/" "AT-Neu" "DD" "FULLSET" []
       = (inr tt,
          [Listdir "data/";
           Glob "data/FLX_AT-Neu_FLUXNET2015_FULLSET_2002-2012_1-4/*.csv";
           ReadCsv "data/FLX_AT-Neu_FLUXNET2015_FULLSET_2002-2012_1-4/FLX_AT-Neu_FLUXNET2015_FULLSET_DD_2002-2012_1-4.csv";
           ReadCsv "doc/variable_groups.csv";
           ReadCsv "output_variables.csv";
           Mkdir "netcdf";
           ToNetcdf "netcdf/FLX_AT-Neu_DD.nc" ds]).
Proof.
  intros w. exists converted_ex. split; vm_refl.
Qed.

(** * Further properties *)

(** ** [main] *)

Section DriverFacts.
Context `{Runtime}.

(** Converting a list of sites in two parts. *)
Lemma convert_sites_app w legend site_info path temporal_agg settype
    (before after : list string) (out : list string) (log : list event) :
  convert_sites w legend site_info path temporal_agg settype (before ++ after)
    out log
  = match convert_sites w legend site_info path temporal_agg settype before
            out log with
    | (inl e, out', log') => (inl e, out', log')
    | (inr _, out', log') =>
        convert_sites w legend site_info path temporal_agg settype after
          out' log'
    end.
Proof.
  revert out log. induction before as [|site before IH]; intros out log; simpl.
  - reflexivity.
  - case_bool_decide; [apply IH|].
    destruct (flux2netcdf _ _ _ _ _ _ _ _) as [[e|[]] log']; [done|apply IH].
Qed.

Lemma slice_code (code rest : string) :
  String.length code = 6%nat ->
  slice ("FLX_" +:+ code +:+ rest) 0 3 = "FLX"
  /\ slice ("FLX_" +:+ code +:+ rest) 4 10 = code.
Proof.
  intros Hlen. split; [reflexivity|].
  unfold slice.
  change (str_drop 4 ("FLX_" +:+ code +:+ rest)) with (code +:+ rest).
  change (10 - 4)%nat with 6%nat. rewrite <- Hlen. apply str_take_app.
Qed.

End DriverFacts.

(** X1: in the mode [site == 'all'], an exception of [flux2netcdf] is not
    caught: the first site whose conversion raises ends the run with that
    exception; the sites after it are neither printed nor converted. *)
Theorem main_all_stops_at_first_failure `{Runtime}
    (w : World) (legend : list legend_row) (site_info : list site_row)
    (path temporal_agg settype : string) (entries before after : list string)
    (site : string) (e : exn) (out out1 : list string)
    (log log1 log2 : list event) :
  os_listdir w path = inr entries ->
  all_sites entries = before ++ site :: after ->
  convert_sites w legend site_info path temporal_agg settype before out
    (log ++ [Listdir path]) = (inr tt, out1, log1) ->
  site <> "AA-Flx" ->
  flux2netcdf w legend site_info path site temporal_agg settype log1
  = (inl e, log2) ->
  main w legend site_info path "all" temporal_agg settype out log
  = (inl e, out1 ++ [site], log2).
Proof.
  intros Hls Hsites Hbefore Hsite Hfail. unfold main.
  rewrite bool_decide_eq_true_2 by done. rewrite Hls, Hsites.
  rewrite convert_sites_app, Hbefore. simpl.
  rewrite bool_decide_eq_false_2 by done. by rewrite Hfail.
Qed.

Lemma main_all_stops_witness :
  main (world_ex ["FLX_AA-Flx_FLUXNET2015_FULLSET_1999-2000_1-4";
                  "FLX_CH-Cha_FLUXNET2015_FULLSET_2005-2014_2-4";
                  "FLX_AT-Neu_FLUXNET2015_FULLSET_2002-2012_1-4"])
    legend_ex site_info_ex "data/" "all" "DD" "FULLSET" [] []
  = (inl (Builtin IndexError), ["AA-Flx"] ++ ["CH-Cha"],
     [Listdir "data/"; Listdir "data/";
      Glob "data/FLX_CH-Cha_FLUXNET2015_FULLSET_2005-2014_2-4/*.csv"]).
Proof.
  apply (main_all_stops_at_first_failure _ legend_ex site_info_ex "data/" "DD"
           "FULLSET"
           ["FLX_AA-Flx_FLUXNET2015_FULLSET_1999-2000_1-4";
            "FLX_CH-Cha_FLUXNET2015_FULLSET_2005-2014_2-4";
            "FLX_AT-Neu_FLUXNET2015_FULLSET_2002-2012_1-4"]
           ["AA-Flx"] ["AT-Neu"] "CH-Cha" IndexError [] ["AA-Flx"] []
           [Listdir "data/"]);
    [reflexivity|reflexivity|reflexivity|discriminate|reflexivity].
Defined.

(** X2: a directory name [FLX_<code><rest>] with a code of six characters
    gives the site code [<code>]: from a listing of such names, the sites
    are the codes, in the order of the listing. *)
Theorem all_sites_reads_six_character_codes
    (named : list (string * string)) :
  (forall code rest, (code, rest) ∈ named -> String.length code = 6%nat) ->
  all_sites ((fun cr => "FLX_" +:+ cr.1 +:+ cr.2) <$> named) = named.*1.
Proof.
  unfold all_sites.
  induction named as [|[code rest] named IH]; intros Hlen; [done|].
  rewrite !fmap_cons. cbn [fst snd].
  destruct (slice_code code rest) as [Hflx Hcode];
    [by apply (Hlen code rest); left|].
  rewrite filter_cons_True by done. rewrite fmap_cons, Hcode.
  f_equal. apply IH. intros c r Hin. apply (Hlen c r). by right.
Qed.

Lemma all_sites_six_character_witness :
  all_sites ((fun cr => "FLX_" +:+ cr.1 +:+ cr.2)
               <$> [("AT-Neu", "_FLUXNET2015_FULLSET_2002-2012_1-4");
                    ("CH-Cha", "_FLUXNET2015_FULLSET_2005-2014_2-4")])
  = [("AT-Neu", "_FLUXNET2015_FULLSET_2002-2012_1-4");
     ("CH-Cha", "_FLUXNET2015_FULLSET_2005-2014_2-4")].*1.
Proof.
  apply all_sites_reads_six_character_codes.
  intros code rest Hin.
  apply elem_of_cons in Hin as [[= -> ->]|Hin]; [reflexivity|].
  apply elem_of_cons in Hin as [[= -> ->]|Hin]; [reflexivity|].
  by apply elem_of_nil in Hin.
Defined.

(** X3: in the mode [site == 'all'] the aggregation code and the set type
    are only looked at inside [flux2netcdf].  When the listing yields no
    site but [AA-Flx], which is printed and skipped, [main] ends normally
    after the one listing, whatever these two arguments are. *)
Theorem main_all_without_sites_checks_nothing `{Runtime}
    (w : World) (legend : list legend_row) (site_info : list site_row)
    (path temporal_agg settype : string) (entries : list string)
    (out : list string) (log : list event) :
  os_listdir w path = inr entries ->
  (forall site, site ∈ all_sites entries -> site = "AA-Flx") ->
  main w legend site_info path "all" temporal_agg settype out log
  = (inr tt, out ++ all_sites entries, log ++ [Listdir path]).
Proof.
  intros Hls Hskip. unfold main.
  rewrite bool_decide_eq_true_2 by done. rewrite Hls.
  generalize (log ++ [Listdir path]) as log'. revert out.
  induction (all_sites entries) as [|site sites IH]; intros out log'; simpl.
  - by rewrite app_nil_r.
  - rewrite bool_decide_eq_true_2 by (apply Hskip; left).
    rewrite IH by (intros s Hs; apply Hskip; by right).
    by rewrite <- app_assoc.
Qed.

Lemma main_all_without_sites_witness :
  main (world_ex ["FLX_AA-Flx_FLUXNET2015_FULLSET_1999-2000_1-4"; "notes.txt"])
    legend_ex site_info_ex "data/" "all" "MM" "EVERYTHING" [] []
  = (inr tt,
     [] ++ all_sites ["FLX_AA-Flx_FLUXNET2015_FULLSET_1999-2000_1-4"; "notes.txt"],
     [] ++ [Listdir "data/"]).
Proof.
  apply (main_all_without_sites_checks_nothing
           (world_ex ["FLX_AA-Flx_FLUXNET2015_FULLSET_1999-2000_1-4"; "notes.txt"])
           legend_ex site_info_ex "data/" "MM" "EVERYTHING"
           ["FLX_AA-Flx_FLUXNET2015_FULLSET_1999-2000_1-4"; "notes.txt"] [] []);
    [reflexivity|].
  intros site [->|Hin%elem_of_nil]%elem_of_cons; done.
Defined.

(** ** [find_flux_file], once more *)

Section FindFacts.
Context `{Runtime}.

Lemma getitem_inl {A} (l : list A) (i : Z) (e : exn) :
  getitem l i = inl e -> e = IndexError.
Proof.
  unfold getitem.
  repeat case_decide; repeat case_match; try done; by intros [= <-].
Qed.

Lemma filter_r_inl {A} (p : A -> result bool) (l : list A) (e : exn) :
  (forall x e, p x = inl e -> e = IndexError) ->
  filter_r p l = inl e -> e = IndexError.
Proof.
  intros Hp. induction l as [|x l IH]; simpl; [done|].
  destruct (p x) as [e'|b] eqn:Hx; simpl.
  - intros [= <-]. by apply (Hp x).
  - destruct (filter_r p l) as [e'|l']; simpl; [|done].
    intros [= <-]. by apply IH.
Qed.

Lemma filter_r_inr {A} (p : A -> result bool) (l l' : list A) :
  filter_r p l = inr l' ->
  forall x, x ∈ l' <-> x ∈ l /\ p x = inr true.
Proof.
  revert l'. induction l as [|y l IH]; intros l'; simpl.
  - intros [= <-] x. split; [by intros ?%elem_of_nil|by intros [?%elem_of_nil _]].
  - destruct (p y) as [e|b] eqn:Hy; simpl; [done|].
    destruct (filter_r p l) as [e|l''] eqn:Hl; simpl; [done|].
    intros [= <-] x. specialize (IH l'' eq_refl x).
    destruct b.
    + rewrite !elem_of_cons, IH. split.
      * intros [->|[? ?]]; [by split; [left|]|by split; [right|]].
      * intros [[->|?] ?]; [by left|by right].
    + rewrite elem_of_cons, IH. split.
      * intros [? ?]. by split; [right|].
      * intros [[->|?] Hx]; [congruence|done].
Qed.

(** The two tests of lines 87 and 88. *)
Definition of_site_and_set (site settype file : string) : result bool :=
  a ← getitem (split "_" file) 1;
  if bool_decide (a = site)
  then b ← getitem (split "_" file) 3; mret (bool_decide (b = settype))
  else mret false.

Definition of_aggregation (temporal_agg file : string) : result bool :=
  a ← getitem (split "_" file) 4; mret (bool_decide (a = temporal_agg)).

Lemma of_site_and_set_inl site settype file e :
  of_site_and_set site settype file = inl e -> e = IndexError.
Proof.
  unfold of_site_and_set.
  destruct (getitem (split "_" file) 1) as [e'|a] eqn:Ha; simpl.
  - intros [= <-]. by apply getitem_inl in Ha.
  - case_bool_decide; [|done].
    destruct (getitem (split "_" file) 3) as [e'|b] eqn:Hb; simpl; [|done].
    intros [= <-]. by apply getitem_inl in Hb.
Qed.

Lemma of_aggregation_inl temporal_agg file e :
  of_aggregation temporal_agg file = inl e -> e = IndexError.
Proof.
  unfold of_aggregation.
  destruct (getitem (split "_" file) 4) as [e'|a] eqn:Ha; simpl; [|done].
  intros [= <-]. by apply getitem_inl in Ha.
Qed.

(** With a valid set type and one directory [d] for the site, the search
    lists the directory, globs [d] and picks among the base names. *)
Lemma find_flux_file_unique (w : World)
    (path site temporal_agg settype : string) (entries : list string)
    (d : string) (log : list event) :
  settype ∈ ["FULLSET"; "SUBSET"] ->
  os_listdir w path = inr entries ->
  filter (fun dir => str_contains site dir = true) entries = [d] ->
  find_flux_file w path site temporal_agg settype log
  = (files ← filter_r (of_site_and_set site settype)
               (os_path_basename w <$> glob_glob w (path +:+ d +:+ "/*.csv"));
     fname ← filter_r (of_aggregation temporal_agg) files;
     f ← getitem fname 0;
     mret (d +:+ "/" +:+ f),
     log ++ [Listdir path; Glob (path +:+ d +:+ "/*.csv")]).
Proof.
  intros Hset Hls Hd. unfold find_flux_file, contains_item.
  rewrite bool_decide_eq_true_2 by done. simpl.
  unfold of_site_and_set, of_aggregation.
  unfold mbind, IO_bind, io_bind, io_call, io_lift, mret, IO_ret, io_ret.
  rewrite Hls. simpl. rewrite Hd. simpl.
  rewrite <- app_assoc. simpl.
  destruct (filter_r _ (os_path_basename w <$> _)) as [e|files];
    simpl; [done|].
  destruct (filter_r _ files) as [e|fname]; simpl; [done|].
  destruct (getitem fname 0); simpl; done.
Qed.

Lemma find_flux_file_pick_inl (site temporal_agg settype d : string)
    (names : list string) (e : exn) :
  (files ← filter_r (of_site_and_set site settype) names;
   fname ← filter_r (of_aggregation temporal_agg) files;
   f ← getitem fname 0;
   mret (d +:+ "/" +:+ f)) = inl e ->
  e = IndexError.
Proof.
  destruct (filter_r (of_site_and_set site settype) names) as [e'|files]
    eqn:H1; simpl.
  { intros [= <-]. eapply filter_r_inl; [|exact H1].
    apply of_site_and_set_inl. }
  destruct (filter_r (of_aggregation temporal_agg) files) as [e'|fname]
    eqn:H2; simpl.
  { intros [= <-]. eapply filter_r_inl; [|exact H2].
    apply of_aggregation_inl. }
  destruct (getitem fname 0) as [e'|f] eqn:H3; simpl; [|done].
  intros [= <-]. by apply getitem_inl in H3.
Qed.

End FindFacts.

Section FindOutcomes.
Context `{Runtime}.

Lemma find_flux_file_listdir_fails (w : World)
    (path site temporal_agg settype : string) (e : builtin_exn)
    (log : list event) :
  settype ∈ ["FULLSET"; "SUBSET"] ->
  os_listdir w path = inl e ->
  find_flux_file w path site temporal_agg settype log
  = (raise e, log ++ [Listdir path]).
Proof.
  intros Hset Hls. unfold find_flux_file, contains_item.
  rewrite bool_decide_eq_true_2 by done. simpl.
  unfold mbind, IO_bind, io_bind, io_call. by rewrite Hls.
Qed.

Lemma of_site_and_set_true site settype file :
  of_site_and_set site settype file = inr true ->
  getitem (split "_" file) 1 = inr site
  /\ getitem (split "_" file) 3 = inr settype.
Proof.
  unfold of_site_and_set.
  destruct (getitem (split "_" file) 1) as [e|a]; simpl; [done|].
  case_bool_decide as Ha; [subst a|done].
  destruct (getitem (split "_" file) 3) as [e|b]; simpl; [done|].
  intros [= Hb%bool_decide_eq_true]. by subst b.
Qed.

Lemma of_aggregation_true temporal_agg file :
  of_aggregation temporal_agg file = inr true ->
  getitem (split "_" file) 4 = inr temporal_agg.
Proof.
  unfold of_aggregation.
  destruct (getitem (split "_" file) 4) as [e|a]; simpl; [done|].
  intros [= Ha%bool_decide_eq_true]. by subst a.
Qed.

End FindOutcomes.

(** X4: [find_flux_file] raises [SetTypeError] exactly when [settype] is
    neither ['FULLSET'] nor ['SUBSET']; the exception carries the rejected
    value and is raised before the directory is listed. *)
Theorem find_flux_file_SetTypeError_iff `{Runtime}
    (w : World) (path site temporal_agg settype : string) (log : list event) :
  ((exists s log',
      find_flux_file w path site temporal_agg settype log
      = (raise (SetTypeError s), log'))
   <-> settype ∉ ["FULLSET"; "SUBSET"])
  /\ (settype ∉ ["FULLSET"; "SUBSET"] ->
      find_flux_file w path site temporal_agg settype log
      = (raise (SetTypeError settype), log)).
Proof.
  assert (settype ∉ ["FULLSET"; "SUBSET"] ->
          find_flux_file w path site temporal_agg settype log
          = (raise (SetTypeError settype), log)) as Hraise.
  { intros Hnot. unfold find_flux_file, contains_item.
    rewrite bool_decide_eq_false_2 by done. reflexivity. }
  split; [split|exact Hraise].
  - intros (s & log' & Hrun) Hnot.
    destruct (decide (settype ∈ ["FULLSET"; "SUBSET"])) as [Hset|]; [|done].
    clear Hnot.
    destruct (os_listdir w path) as [e|entries] eqn:Hls.
    { rewrite (find_flux_file_listdir_fails w path site temporal_agg settype
                 e log Hset Hls) in Hrun. discriminate. }
    destruct (filter (fun dir => str_contains site dir = true) entries)
      as [|d [|d' rest]] eqn:Hd.
    + rewrite (find_flux_file_site_count w path site temporal_agg settype
                 entries log Hset Hls) in Hrun by (by rewrite Hd).
      discriminate.
    + rewrite (find_flux_file_unique w path site temporal_agg settype
                 entries d log Hset Hls Hd) in Hrun.
      injection Hrun as Hr _. by apply find_flux_file_pick_inl in Hr.
    + rewrite (find_flux_file_site_count w path site temporal_agg settype
                 entries log Hset Hls) in Hrun by (by rewrite Hd).
      discriminate.
  - intros Hnot. eexists _, _. by apply Hraise.
Qed.



(** ** [flux2netcdf], step by step *)

(** [w] with another answer of [pd.read_csv] for station tables. *)
Definition with_read_csv `{Runtime} (w : World)
    (answer : string -> lib_result DataFrame) : World :=
  {| os_listdir := os_listdir w;
     glob_glob := glob_glob w;
     os_path_basename := os_path_basename w;
     os_path_join := os_path_join w;
     read_csv := answer;
     read_variable_groups := read_variable_groups w;
     read_output_variables := read_output_variables w;
     datetime_now := datetime_now w;
     os_mkdir := os_mkdir w;
     to_netcdf := to_netcdf w |}.

(** [w] with another answer of [os.mkdir]. *)
Definition with_mkdir `{Runtime} (w : World)
    (answer : string -> lib_result unit) : World :=
  {| os_listdir := os_listdir w;
     glob_glob := glob_glob w;
     os_path_basename := os_path_basename w;
     os_path_join := os_path_join w;
     read_csv := read_csv w;
     read_variable_groups := read_variable_groups w;
     read_output_variables := read_output_variables w;
     datetime_now := datetime_now w;
     os_mkdir := answer;
     to_netcdf := to_netcdf w |}.

Section Steps.
Context `{Runtime}.

Lemma io_bind_run {A B} (m : IO A) (k : A -> IO B) (log : list event) :
  (m ≫= k) log
  = match m log with
    | (inl e, log') => (inl e, log')
    | (inr x, log') => k x log'
    end.
Proof. reflexivity. Qed.

(** Past the two tests, [flux2netcdf] goes on with the file found. *)
Lemma flux2netcdf_loaded (w : World) (legend : list legend_row)
    (site_info : list site_row) (path site temporal_agg settype fname : string)
    (log log1 : list event) :
  temporal_agg ∈ ["HH"; "DD"; "WW"; "YY"] ->
  find_flux_file w path site temporal_agg settype log = (inr fname, log1) ->
  forall loaded,
    loaded
    = match read_csv w (os_path_join w path fname) with
      | inl e =>
          inl (if bool_decide (Builtin e ∈ [Builtin ValueError; Builtin IndexError])
               then SiteCodeError site else Builtin e)
      | inr df =>
          match site_info_loc site_info site with
          | inl e =>
              inl (if bool_decide (e ∈ [Builtin ValueError; Builtin IndexError])
                   then SiteCodeError site else e)
          | inr m => inr (df, m)
          end
      end ->
  flux2netcdf w legend site_info path site temporal_agg settype log
  = match loaded with
    | inl e => (inl e, log1 ++ [ReadCsv (os_path_join w path fname)])
    | inr (df, m) =>
        (named ← io_lift (time_column temporal_agg df);
         date_format ← io_lift (check_date_format named.2 named.1);
         df ← io_lift (set_time_index named.2 named.1 date_format);
         df ← filter_output w df;
         ds ← io_lift (annotate w legend m path site temporal_agg settype df);
         _ ← io_pass (io_call (Mkdir "netcdf") (os_mkdir w "netcdf"))
               FileExistsError;
         io_call (ToNetcdf ("netcdf/FLX_" +:+ site +:+ "_" +:+ temporal_agg
                              +:+ ".nc") ds)
           (to_netcdf w ("netcdf/FLX_" +:+ site +:+ "_" +:+ temporal_agg
                           +:+ ".nc") ds))
          (log1 ++ [ReadCsv (os_path_join w path fname)])
    end.
Proof.
  intros Hvalid Hfind loaded ->. unfold flux2netcdf, contains_item.
  rewrite bool_decide_eq_true_2 by done.
  change (negb true) with false. cbv iota.
  rewrite io_bind_run, Hfind. rewrite io_bind_run.
  unfold io_reraise. rewrite io_bind_run. unfold io_call at 1.
  destruct (read_csv w (os_path_join w path fname)) as [e|df]; simpl; [done|].
  rewrite io_bind_run. unfold io_lift at 1.
  destruct (site_info_loc site_info site) as [e|m]; simpl; done.
Qed.

End Steps.

(** X6: a site code without a row in [site_info] makes [flux2netcdf]
    raise [KeyError], after the station table has been read: the handler
    around the lookup catches [ValueError] and [IndexError] only, so this
    case does not become a [SiteCodeError]. *)
Theorem flux2netcdf_unknown_site_raises_KeyError `{Runtime}
    (w : World) (legend : list legend_row) (site_info : list site_row)
    (path site temporal_agg settype fname : string) (df : DataFrame)
    (log log1 : list event) :
  temporal_agg ∈ ["HH"; "DD"; "WW"; "YY"] ->
  find_flux_file w path site temporal_agg settype log = (inr fname, log1) ->
  read_csv w (os_path_join w path fname) = inr df ->
  (forall r, r ∈ site_info -> si_site r <> site) ->
  flux2netcdf w legend site_info path site temporal_agg settype log
  = (raise KeyError, log1 ++ [ReadCsv (os_path_join w path fname)]).
Proof.
  intros Hvalid Hfind Hread Hnone.
  rewrite (flux2netcdf_loaded w legend site_info path site temporal_agg
             settype fname log log1 Hvalid Hfind _ eq_refl).
  rewrite Hread. unfold site_info_loc.
  rewrite filter_none by done. reflexivity.
Qed.

Lemma flux2netcdf_unknown_site_witness :
  let w := world_ex ["FLX_AT-Neu_FLUXNET2015_FULLSET_2002-2012_1-4"] in
  flux2netcdf w legend_ex [] "data/" "AT-Neu" "DD" "FULLSET" []
  = (raise KeyError,
     [Listdir "data/";
      Glob "data/FLX_AT-Neu_FLUXNET2015_FULLSET_2002-2012_1-4/*.csv"]
     ++ [ReadCsv (os_path_join w "data/"
           "FLX_AT-Neu_FLUXNET2015_FULLSET_2002-2012_1-4/FLX_AT-Neu_FLUXNET2015_FULLSET_DD_2002-2012_1-4.csv")]).
Proof.
  intros w.
  apply (flux2netcdf_unknown_site_raises_KeyError w legend_ex [] "data/"
           "AT-Neu" "DD" "FULLSET"
           "FLX_AT-Neu_FLUXNET2015_FULLSET_2002-2012_1-4/FLX_AT-Neu_FLUXNET2015_FULLSET_DD_2002-2012_1-4.csv"
           station_ex []);
    [by right; left|reflexivity|reflexivity|].
  by intros r ?%elem_of_nil.
Defined.

(** X7: when reading the station table raises [ValueError] or
    [IndexError], [flux2netcdf] raises [SiteCodeError] with the site code;
    any other exception of the read goes through unchanged.  In both cases
    nothing else is read or written. *)
Theorem flux2netcdf_unreadable_table `{Runtime}
    (w : World) (legend : list legend_row) (site_info : list site_row)
    (path site temporal_agg settype fname : string) (e : builtin_exn)
    (log log1 : list event) :
  temporal_agg ∈ ["HH"; "DD"; "WW"; "YY"] ->
  find_flux_file w path site temporal_agg settype log = (inr fname, log1) ->
  read_csv w (os_path_join w path fname) = inl e ->
  flux2netcdf w legend site_info path site temporal_agg settype log
  = (raise (if decide (e = ValueError \/ e = IndexError)
            then SiteCodeError site else Builtin e),
     log1 ++ [ReadCsv (os_path_join w path fname)]).
Proof.
  intros Hvalid Hfind Hread.
  rewrite (flux2netcdf_loaded w legend site_info path site temporal_agg
             settype fname log log1 Hvalid Hfind _ eq_refl).
  rewrite Hread. unfold raise. do 2 f_equal.
  destruct e; vm_compute; reflexivity.
Qed.

Lemma flux2netcdf_unreadable_table_witness :
  let w := with_read_csv
             (world_ex ["FLX_AT-Neu_FLUXNET2015_FULLSET_2002-2012_1-4"])
             (fun _ => inl ValueError) in
  flux2netcdf w legend_ex site_info_ex "data/" "AT-Neu" "DD" "FULLSET" []
  = (raise (if decide (ValueError = ValueError \/ ValueError = IndexError)
            then SiteCodeError "AT-Neu" else Builtin ValueError),
     [Listdir "data/";
      Glob "data/FLX_AT-Neu_FLUXNET2015_FULLSET_2002-2012_1-4/*.csv"]
     ++ [ReadCsv (os_path_join w "data/"
           "FLX_AT-Neu_FLUXNET2015_FULLSET_2002-2012_1-4/FLX_AT-Neu_FLUXNET2015_FULLSET_DD_2002-2012_1-4.csv")]).
Proof.
  intros w.
  apply (flux2netcdf_unreadable_table w legend_ex site_info_ex "data/"
           "AT-Neu" "DD" "FULLSET"
           "FLX_AT-Neu_FLUXNET2015_FULLSET_2002-2012_1-4/FLX_AT-Neu_FLUXNET2015_FULLSET_DD_2002-2012_1-4.csv"
           ValueError []);
    [by right; left|reflexivity|reflexivity].
Defined.

(** X8: how the steps of one conversion compose.  When the file is found,
    the table read, the site registered, the time column parsed, the
    columns filtered and the dataset annotated, [flux2netcdf] creates the
    directory [netcdf] and writes the dataset to
    [netcdf/FLX_<site>_<temporal_agg>.nc]; a [FileExistsError] of the
    [mkdir] is passed over, any other exception of it ends the conversion
    before anything is written. *)
Theorem flux2netcdf_writes_the_annotated_dataset `{Runtime}
    (w : World) (legend : list legend_row) (site_info : list site_row)
    (path site temporal_agg settype fname time_col_name date_format : string)
    (df df1 df2 df3 : DataFrame) (m : metadata) (ds : Dataset)
    (log log1 log3 : list event) :
  temporal_agg ∈ ["HH"; "DD"; "WW"; "YY"] ->
  find_flux_file w path site temporal_agg settype log = (inr fname, log1) ->
  read_csv w (os_path_join w path fname) = inr df ->
  site_info_loc site_info site = inr m ->
  time_column temporal_agg df = inr (time_col_name, df1) ->
  check_date_format df1 time_col_name = inr date_format ->
  set_time_index df1 time_col_name date_format = inr df2 ->
  filter_output w df2 (log1 ++ [ReadCsv (os_path_join w path fname)])
  = (inr df3, log3) ->
  annotate w legend m path site temporal_agg settype df3 = inr ds ->
  flux2netcdf w legend site_info path site temporal_agg settype log
  = let out := "netcdf/FLX_" +:+ site +:+ "_" +:+ temporal_agg +:+ ".nc" in
    match os_mkdir w "netcdf" with
    | inl e =>
        if decide (e = FileExistsError)
        then (lift (to_netcdf w out ds),
              log3 ++ [Mkdir "netcdf"; ToNetcdf out ds])
        else (raise e, log3 ++ [Mkdir "netcdf"])
    | inr _ =>
        (lift (to_netcdf w out ds), log3 ++ [Mkdir "netcdf"; ToNetcdf out ds])
    end.
Proof.
  intros Hvalid Hfind Hread Hsite Htime Hformat Hindex Hfilter Hannotate.
  rewrite (flux2netcdf_loaded w legend site_info path site temporal_agg
             settype fname log log1 Hvalid Hfind _ eq_refl).
  rewrite Hread, Hsite. cbv zeta.
  rewrite io_bind_run. unfold io_lift at 1. rewrite Htime. cbn [fst snd].
  rewrite io_bind_run. unfold io_lift at 1. rewrite Hformat.
  rewrite io_bind_run. unfold io_lift at 1. rewrite Hindex.
  rewrite io_bind_run, Hfilter.
  rewrite io_bind_run. unfold io_lift at 1. rewrite Hannotate.
  rewrite io_bind_run. unfold io_pass, io_call.
  destruct (os_mkdir w "netcdf") as [e|[]]; simpl.
  - destruct (decide (Builtin e = Builtin FileExistsError)) as [Heq|Hne];
      destruct (decide (e = FileExistsError)) as [->|Hne']; try congruence.
    + by rewrite <- app_assoc.
    + reflexivity.
  - by rewrite <- app_assoc.
Qed.

Lemma flux2netcdf_writes_witness :
  let w := with_mkdir
             (world_ex ["FLX_AT-Neu_FLUXNET2015_FULLSET_2002-2012_1-4"])
             (fun _ => inl FileExistsError) in
  let log3 :=
    [Listdir "data/";
     Glob "data/FLX_AT-Neu_FLUXNET2015_FULLSET_2002-2012_1-4/*.csv";
     ReadCsv "data/FLX_AT-Neu_FLUXNET2015_FULLSET_2002-2012_1-4/FLX_AT-Neu_FLUXNET2015_FULLSET_DD_2002-2012_1-4.csv";
     ReadCsv "doc/variable_groups.csv";
     ReadCsv "output_variables.csv"] in
  flux2netcdf w legend_ex site_info_ex "data/" "AT-Neu" "DD" "FULLSET" []
  = let out := "netcdf/FLX_" +:+ "AT-Neu" +:+ "_" +:+ "DD" +:+ ".nc" in
    match os_mkdir w "netcdf" with
    | inl e =>
        if decide (e = FileExistsError)
        then (lift (to_netcdf w out converted_ex),
              log3 ++ [Mkdir "netcdf"; ToNetcdf out converted_ex])
        else (raise e, log3 ++ [Mkdir "netcdf"])
    | inr _ =>
        (lift (to_netcdf w out converted_ex),
         log3 ++ [Mkdir "netcdf"; ToNetcdf out converted_ex])
    end.
Proof.
  intros w log3.
  apply (flux2netcdf_writes_the_annotated_dataset w legend_ex site_info_ex
           "data/" "AT-Neu" "DD" "FULLSET"
           "FLX_AT-Neu_FLUXNET2015_FULLSET_2002-2012_1-4/FLX_AT-Neu_FLUXNET2015_FULLSET_DD_2002-2012_1-4.csv"
           "TIMESTAMP" "%Y%m%d" station_ex station_ex indexed_ex filtered_ex
           metadata_ex converted_ex []
           [Listdir "data/";
            Glob "data/FLX_AT-Neu_FLUXNET2015_FULLSET_2002-2012_1-4/*.csv"]
           log3);
    [by right; left|vm_refl..].
Defined.

(** ** [filter_output], once more *)

(** Line 98: the groups flagged with 1. *)
Definition enabled_groups (output_variables : list flag_row) : list string :=
  ov_GROUP <$> filter (fun r => ov_FLAG r = 1) output_variables.

(** Line 99: the names listed under an enabled group. *)
Definition listed (variable_groups : list group_row)
    (output_variables : list flag_row) : list string :=
  vg_Variable
    <$> filter (fun r => vg_Group r ∈ enabled_groups output_variables)
          variable_groups.

Section FilterFacts.
Context `{Runtime}.

Lemma mapM_inr_elem {A B} (f : A -> result B) (l : list A) (ys : list B) :
  mapM (M := result) f l = inr ys ->
  (forall x, x ∈ l -> exists y, f x = inr y)
  /\ forall y, y ∈ ys <-> exists x, x ∈ l /\ f x = inr y.
Proof.
  revert ys. induction l as [|x l IH]; intros ys.
  - intros [= <-]. split; [by intros x ?%elem_of_nil|].
    intros y. split; [by intros ?%elem_of_nil|].
    by intros (x & ?%elem_of_nil & _).
  - rewrite mapM_cons.
    destruct (f x) as [e|y0] eqn:Hx; simpl; [done|].
    destruct (mapM f l) as [e|ys0] eqn:Hl; simpl; [done|].
    intros [= <-]. destruct (IH ys0 eq_refl) as [Hall Hys]. split.
    + intros x' [->|Hin]%elem_of_cons; [by eexists|by apply Hall].
    + intros y. rewrite elem_of_cons, Hys. split.
      * intros [->|(x' & Hin & Hfx)].
        -- exists x. split; [by left|done].
        -- exists x'. split; [by right|done].
      * intros (x' & [->|Hin]%elem_of_cons & Hfx).
        -- left. congruence.
        -- right. by exists x'.
Qed.

Lemma elem_of_concat {A} (x : A) (ls : list (list A)) :
  x ∈ concat ls <-> exists l, x ∈ l /\ l ∈ ls.
Proof.
  induction ls as [|l0 ls IH]; simpl.
  - split; [by intros ?%elem_of_nil|by intros (l & _ & ?%elem_of_nil)].
  - rewrite elem_of_app, IH. split.
    + intros [?|(l & ? & ?)]; [exists l0; by split; [|left]|].
      exists l. by split; [|right].
    + intros (l & Hx & [->|?]%elem_of_cons); [by left|right; by exists l].
Qed.

(** Membership in the allowed list, as lines 98-110 build it. *)
Lemma allowed_variables_elem_of (vg : list group_row) (ov : list flag_row)
    (cols allowed : list string) :
  allowed_variables vg ov cols = inr allowed ->
  (forall nv, nv ∈ listed vg ov -> str_contains "#" nv = true ->
     exists pattern, re_compile (replace_char "#" "\d" nv) = inr pattern)
  /\ forall x,
       x ∈ allowed <->
       (x ∈ listed vg ov
        \/ exists nv pattern,
             nv ∈ listed vg ov
             /\ str_contains "#" nv = true
             /\ re_compile (replace_char "#" "\d" nv) = inr pattern
             /\ x ∈ cols
             /\ pattern x = true)
       /\ ("QUALITY FLAGS" ∈ enabled_groups ov \/ str_contains "QC" x = false).
Proof.
  unfold allowed_variables. cbv zeta.
  fold (enabled_groups ov). fold (listed vg ov).
  destruct (mapM _ _) as [e|numbered] eqn:Hnum; simpl; [done|].
  apply mapM_inr_elem in Hnum as [Hall Hnum].
  intros [= <-]. split.
  { intros nv Hnv Hhash.
    destruct (Hall nv) as [y Hy]; [by apply list_elem_of_filter|].
    destruct (re_compile (replace_char "#" "\d" nv)) as [e|pattern];
      [done|by eexists]. }
  assert (forall x,
            x ∈ listed vg ov ++ concat numbered <->
            x ∈ listed vg ov
            \/ exists nv pattern,
                 nv ∈ listed vg ov
                 /\ str_contains "#" nv = true
                 /\ re_compile (replace_char "#" "\d" nv) = inr pattern
                 /\ x ∈ cols
                 /\ pattern x = true) as Hmem.
  { intros x. rewrite elem_of_app. split.
    - intros [?|Hx]; [by left|]. right.
      apply elem_of_concat in Hx as (ys & Hx & Hys).
      apply Hnum in Hys as (nv & [Hhash Hnv]%list_elem_of_filter & Hf).
      destruct (re_compile (replace_char "#" "\d" nv)) as [e|pattern] eqn:Hc;
        simpl in Hf; [done|].
      injection Hf as <-. apply list_elem_of_filter in Hx as [Hp Hx].
      by exists nv, pattern.
    - intros [?|(nv & pattern & Hnv & Hhash & Hc & Hx & Hp)]; [by left|].
      right. apply elem_of_concat.
      exists (filter (fun c => pattern c = true) cols). split.
      + by apply list_elem_of_filter.
      + apply Hnum. exists nv. split; [by apply list_elem_of_filter|].
        by rewrite Hc. }
  intros x. unfold contains_item. case_bool_decide as Hqf; simpl.
  - rewrite Hmem. split; [by intros ?; split; [|left]|by intros [? _]].
  - rewrite list_elem_of_filter, Hmem. split.
    + intros [Hqc Hx]. by split; [|right].
    + intros [Hx [?|Hqc]]; [done|by split].
Qed.

(** A conversion that got through [filter_output] had its allowed list. *)
Lemma filter_output_inr (w : World) (vg : list group_row) (ov : list flag_row)
    (df df' : DataFrame) (log log' : list event) :
  read_variable_groups w = inr vg ->
  read_output_variables w = inr ov ->
  filter_output w df log = (inr df', log') ->
  exists allowed,
    allowed_variables vg ov (columns df) = inr allowed
    /\ df' = {| df_index := df_index df;
                df_columns := filter (fun c => c.1 ∈ allowed) (df_columns df) |}
    /\ log' = log ++ [ReadCsv "doc/variable_groups.csv";
                      ReadCsv "output_variables.csv"].
Proof.
  intros Hvg Hov Hrun.
  destruct (allowed_variables vg ov (columns df)) as [e|allowed] eqn:Ha.
  - exfalso. revert Hrun.
    unfold filter_output, mbind, IO_bind, io_bind, io_call, io_lift.
    rewrite Hvg, Hov. simpl. by rewrite Ha.
  - exists allowed. split; [done|].
    rewrite (filter_output_returns w vg ov df allowed log Hvg Hov Ha) in Hrun.
    by injection Hrun as <- <-.
Qed.

End FilterFacts.

Section FilterAgain.
Context `{Runtime}.

Lemma filter_all {A} (P : A -> Prop) `{forall x, Decision (P x)} (l : list A) :
  (forall x, x ∈ l -> P x) -> filter P l = l.
Proof.
  induction l as [|x l IH]; intros Hl; [done|].
  rewrite filter_cons_True by (apply Hl; left).
  f_equal. apply IH. intros y Hy. apply Hl. by right.
Qed.

(** The patterns do not depend on the table: once compiled, they compile
    for another table too. *)
Lemma allowed_variables_returns_again (vg : list group_row)
    (ov : list flag_row) (cols cols' allowed : list string) :
  allowed_variables vg ov cols = inr allowed ->
  exists allowed', allowed_variables vg ov cols' = inr allowed'.
Proof.
  intros [Hcompile _]%allowed_variables_elem_of.
  unfold allowed_variables. cbv zeta.
  fold (enabled_groups ov). fold (listed vg ov).
  edestruct (mapM_returns
    (fun numbered_variable =>
       pattern ← lift (re_compile (replace_char "#" "\d" numbered_variable));
       mret (filter (fun c => pattern c = true) cols'))) as [ys ->];
    [|by eexists].
  intros nv [Hhash Hnv]%list_elem_of_filter.
  destruct (Hcompile nv Hnv Hhash) as [pattern ->]. by eexists.
Qed.

End FilterAgain.

(** X9: which columns [filter_output] keeps.  A column is kept exactly
    when its name is listed in [variable_groups.csv] under a group flagged
    with 1, or is matched by the pattern made of such a name that contains
    [#] (with [\d] in the place of each [#]), and, unless the group
    [QUALITY FLAGS] is flagged with 1, its name does not contain [QC]. *)
Theorem filter_output_keeps_exactly `{Runtime}
    (w : World) (vg : list group_row) (ov : list flag_row)
    (df df' : DataFrame) (log log' : list event) :
  read_variable_groups w = inr vg ->
  read_output_variables w = inr ov ->
  filter_output w df log = (inr df', log') ->
  forall c,
    c ∈ columns df' <->
    c ∈ columns df
    /\ (c ∈ listed vg ov
        \/ exists nv pattern,
             nv ∈ listed vg ov
             /\ str_contains "#" nv = true
             /\ re_compile (replace_char "#" "\d" nv) = inr pattern
             /\ pattern c = true)
    /\ ("QUALITY FLAGS" ∈ enabled_groups ov \/ str_contains "QC" c = false).
Proof.
  intros Hvg Hov Hrun c.
  destruct (filter_output_inr w vg ov df df' log log' Hvg Hov Hrun)
    as (allowed & Hallowed & -> & _).
  apply allowed_variables_elem_of in Hallowed as [_ Hmem].
  unfold columns at 1. simpl. rewrite columns_filter.
  rewrite list_elem_of_filter, Hmem. fold (columns df). split.
  - intros [[[Hl|(nv & pattern & ? & ? & ? & ? & ?)] Hqc] Hc].
    + by split; [|split; [left|]].
    + split; [done|]. split; [|done]. right. by exists nv, pattern.
  - intros [Hc [[Hl|(nv & pattern & ? & ? & ? & ?)] Hqc]].
    + by split; [split; [left|]|].
    + split; [|done]. split; [|done]. right. by exists nv, pattern.
Qed.

Lemma filter_output_keeps_exactly_witness :
  let df' := {| df_index := None;
                df_columns :=
                  [("TA_F_MDS", [inl 3; inl 4]);
                   ("NEE_CUT_50", [inl 1; inl 2]);
                   ("SWC_F_MDS_1", [inl 30; inl 31])] |} in
  filter_output (world_ex []) station_ex []
  = (inr df', [ReadCsv "doc/variable_groups.csv"; ReadCsv "output_variables.csv"])
  /\ forall c,
       c ∈ columns df' <->
       c ∈ columns station_ex
       /\ (c ∈ listed variable_groups_ex output_variables_ex
           \/ exists nv pattern,
                nv ∈ listed variable_groups_ex output_variables_ex
                /\ str_contains "#" nv = true
                /\ re_compile (replace_char "#" "\d" nv) = inr pattern
                /\ pattern c = true)
       /\ ("QUALITY FLAGS" ∈ enabled_groups output_variables_ex
           \/ str_contains "QC" c = false).
Proof.
  intros df'. split; [vm_refl|].
  apply (filter_output_keeps_exactly (world_ex []) variable_groups_ex
           output_variables_ex station_ex df' []
           [ReadCsv "doc/variable_groups.csv"; ReadCsv "output_variables.csv"]);
    [reflexivity|reflexivity|vm_refl].
Defined.

(** X10: [filter_output] is idempotent: filtering the table it returned,
    with the same two tables, returns that table again. *)
Theorem filter_output_idempotent `{Runtime}
    (w : World) (vg : list group_row) (ov : list flag_row)
    (df df' : DataFrame) (log log' : list event) :
  read_variable_groups w = inr vg ->
  read_output_variables w = inr ov ->
  filter_output w df log = (inr df', log') ->
  filter_output w df' log'
  = (inr df',
     log' ++ [ReadCsv "doc/variable_groups.csv"; ReadCsv "output_variables.csv"]).
Proof.
  intros Hvg Hov Hrun.
  destruct (filter_output_inr w vg ov df df' log log' Hvg Hov Hrun)
    as (allowed & Hallowed & -> & _).
  set (df' := {| df_index := df_index df;
                 df_columns := filter (fun c => c.1 ∈ allowed) (df_columns df) |}).
  destruct (allowed_variables_returns_again vg ov (columns df) (columns df')
              allowed Hallowed) as [allowed' Hallowed'].
  rewrite (filter_output_returns w vg ov df' allowed' log' Hvg Hov Hallowed').
  do 2 f_equal. unfold df' at 3. f_equal. simpl.
  apply filter_all. intros [name xs] Hin. simpl.
  apply allowed_variables_elem_of in Hallowed as [_ Hmem].
  apply allowed_variables_elem_of in Hallowed' as [_ Hmem'].
  assert (name ∈ columns df') as Hname.
  { unfold columns. apply list_elem_of_fmap. by exists (name, xs). }
  apply list_elem_of_filter in Hin as [Hin _]. simpl in Hin.
  apply Hmem in Hin as [[Hl|(nv & pattern & ? & ? & ? & ? & ?)] Hqc].
  - apply Hmem'. by split; [left|].
  - apply Hmem'. split; [|done]. right. by exists nv, pattern.
Qed.

Lemma filter_output_idempotent_witness :
  let df' := {| df_index := None;
                df_columns :=
                  [("TA_F_MDS", [inl 3; inl 4]);
                   ("NEE_CUT_50", [inl 1; inl 2]);
                   ("SWC_F_MDS_1", [inl 30; inl 31])] |} in
  filter_output (world_ex []) df'
    [ReadCsv "doc/variable_groups.csv"; ReadCsv "output_variables.csv"]
  = (inr df',
     [ReadCsv "doc/variable_groups.csv"; ReadCsv "output_variables.csv"]
     ++ [ReadCsv "doc/variable_groups.csv"; ReadCsv "output_variables.csv"]).
Proof.
  intros df'.
  apply (filter_output_idempotent (world_ex []) variable_groups_ex
           output_variables_ex station_ex df' []);
    [reflexivity|reflexivity|vm_refl].
Defined.

(** ** What annotation leaves alone *)

Section Payload.
Context `{Runtime}.

(** The data of a dataset, without the attributes. *)
Definition payloads (ds : Dataset) : list (string * payload) :=
  (fun kv => (kv.1, da_data kv.2)) <$> ds_data_vars ds.

Lemma set_attrs_payloads ds name a :
  payloads (set_attrs ds name a) = payloads ds.
Proof.
  unfold payloads, set_attrs; simpl. rewrite <- list_fmap_compose.
  apply list_fmap_ext. intros i [k da] _. simpl. by destruct (decide (k = name)).
Qed.

Lemma set_attributes_keeps_payloads legend temporal_agg ds ds' :
  set_attributes legend temporal_agg ds = inr ds' ->
  payloads ds' = payloads ds /\ ds_time ds' = ds_time ds.
Proof.
  unfold set_attributes.
  destruct (for_each _ _ _) as [e|st] eqn:Hloop; simpl; [done|].
  intros [= <-].
  apply (for_each_invariant _
           (fun _ st => payloads (loc_ds st) = payloads ds
                        /\ ds_time (loc_ds st) = ds_time ds))
    in Hloop; [done|done|].
  intros done x s t [Hp Ht] (v & attrs & _ & ->)%set_variable_attrs_inr.
  cbn [loc_ds]. by rewrite set_attrs_payloads.
Qed.

Lemma elem_of_set_attrs_other ds name a n da :
  (n, da) ∈ ds_data_vars ds -> n <> name ->
  (n, da) ∈ ds_data_vars (set_attrs ds name a).
Proof.
  intros Hin Hne. unfold set_attrs; simpl.
  apply list_elem_of_fmap. exists (n, da). split; [|done].
  simpl. by rewrite decide_False.
Qed.

Lemma elem_of_setitem_other ds name x n da :
  (n, da) ∈ ds_data_vars ds -> n <> name ->
  (n, da) ∈ ds_data_vars (setitem ds name x).
Proof.
  intros Hin Hne. unfold setitem; simpl. case_bool_decide.
  - apply list_elem_of_fmap. exists (n, da). split; [|done].
    simpl. by rewrite decide_False.
  - apply elem_of_app. by left.
Qed.

Lemma add_coordinates_keeps (m : metadata) (ds ds' : Dataset) :
  add_coordinates m ds = inr ds' ->
  ds_time ds' = ds_time ds
  /\ forall n da, (n, da) ∈ ds_data_vars ds -> n <> "lon" -> n <> "lat" ->
                  (n, da) ∈ ds_data_vars ds'.
Proof.
  unfold add_coordinates.
  destruct (metadata_loc m si_lon) as [e|x]; simpl; [done|].
  destruct (metadata_loc m si_lat) as [e|y]; simpl; [done|].
  intros [= <-]. split; [done|]. intros n da Hin Hlon Hlat.
  by repeat first [apply elem_of_set_attrs_other | apply elem_of_setitem_other].
Qed.

End Payload.

(** X11: annotation does not touch the data.  In the dataset [annotate]
    returns, the time axis is the index of the table, and every column of
    the table not named [lon] or [lat] is a data variable with the values
    of that column. *)
Theorem annotate_keeps_the_data `{Runtime}
    (w : World) (legend : list legend_row) (m : metadata)
    (path site temporal_agg settype : string) (df : DataFrame) (ds : Dataset) :
  annotate w legend m path site temporal_agg settype df = inr ds ->
  ds_time ds = match df_index df with Some (_, t) => t | None => [] end
  /\ forall name xs,
       (name, xs) ∈ df_columns df -> name <> "lon" -> name <> "lat" ->
       exists a,
         (name, {| da_data := Column xs; da_attrs := a |}) ∈ ds_data_vars ds.
Proof.
  unfold annotate. cbv zeta.
  destruct (set_attributes legend temporal_agg (to_xarray df)) as [e|ds1]
    eqn:Hloop; simpl; [done|].
  destruct (add_coordinates m ds1) as [e|ds2] eqn:Hcoord; simpl; [done|].
  apply set_attributes_keeps_payloads in Hloop as [Hpay Htime].
  apply add_coordinates_keeps in Hcoord as [Htime' Hkeep].
  unfold set_global_attrs.
  destruct (metadata_loc m si_country); simpl; [done|].
  destruct (metadata_loc m si_elev); simpl; [done|].
  destruct (metadata_loc m si_lon); simpl; [done|].
  destruct (metadata_loc m si_lat); simpl; [done|].
  destruct (metadata_loc m si_pft); simpl; [done|].
  intros [= <-]. simpl. split; [by rewrite Htime', Htime|].
  intros name xs Hin Hlon Hlat.
  assert ((name, Column xs) ∈ payloads ds1) as Hp.
  { rewrite Hpay. unfold payloads, to_xarray; simpl.
    rewrite <- list_fmap_compose. apply list_elem_of_fmap.
    by exists (name, xs). }
  apply list_elem_of_fmap in Hp as ([n [data a]] & [= -> ->] & Hda).
  exists a. by apply Hkeep.
Qed.

Lemma annotate_keeps_the_data_witness :
  annotate (world_ex []) legend_ex metadata_ex "data/" "AT-Neu" "DD" "FULLSET"
    retained_ex = inr annotated_ex
  /\ ds_time annotated_ex
     = match df_index retained_ex with Some (_, t) => t | None => [] end
  /\ forall name xs,
       (name, xs) ∈ df_columns retained_ex -> name <> "lon" -> name <> "lat" ->
       exists a,
         (name, {| da_data := Column xs; da_attrs := a |})
           ∈ ds_data_vars annotated_ex.
Proof.
  split; [vm_refl|].
  apply (annotate_keeps_the_data (world_ex []) legend_ex metadata_ex "data/"
           "AT-Neu" "DD" "FULLSET" retained_ex annotated_ex).
  vm_refl.
Defined.

(** ** The unit lookup, once more *)

Lemma unit_lookup_inside_window_witness :
  resolve_unit legend_ex "NEE_CUT_XX" "DD" = inr (Text "gC m-2 d-1").
Proof.
  apply (unit_lookup_inside_window legend_ex "NEE_CUT_XX" "DD" 3
           {| col_Variable := Text "NEE_CUT_XX";
              col_Description := Text "Net ecosystem exchange, percentile";
              col_Units := NaN |}
           5
           {| col_Variable := Text "DD"; col_Description := NaN;
              col_Units := Text "gC m-2 d-1" |});
    [reflexivity|reflexivity|lia|reflexivity|reflexivity|].
  intros k p Hk Hp.
  assert (k = 4%nat) as -> by lia.
  injection Hp as <-. discriminate.
Defined.

Section UnitFacts.
Context `{Runtime}.

Lemma has_Variable_true legend v i r :
  list_find (fun r => col_Variable r = Text v) legend = Some (i, r) ->
  Legend.has_Variable legend v = true.
Proof.
  intros (Hi & Hr & _)%list_find_Some.
  unfold Legend.has_Variable, contains_item. apply bool_decide_eq_true.
  rewrite <- Hr. apply list_elem_of_fmap. exists r. split; [done|].
  by eapply list_elem_of_lookup_2.
Qed.

Lemma where_Variable_none legend v :
  Legend.has_Variable legend v = false -> Legend.where_Variable legend v = [].
Proof.
  unfold Legend.has_Variable, contains_item, Legend.where_Variable.
  intros Hnot%bool_decide_eq_false. apply filter_none.
  intros [i r] Hin Hr. simpl in Hr. apply Hnot.
  apply enumerate_lookup in Hin as [_ Hl]. rewrite <- Hr.
  apply list_elem_of_fmap. exists r. split; [done|].
  by eapply list_elem_of_lookup_2.
Qed.

(** A name the legend does not list has no unit to read. *)
Lemma resolve_unit_unlisted legend v temporal_agg :
  Legend.has_Variable legend v = false ->
  resolve_unit legend v temporal_agg = raise IndexError.
Proof.
  intros Hw%where_Variable_none. unfold resolve_unit. by rewrite Hw.
Qed.

(** With the scalar unit missing, the lookup always returns. *)
Lemma resolve_unit_NaN_returns legend v temporal_agg i r :
  list_find (fun r => col_Variable r = Text v) legend = Some (i, r) ->
  col_Units r = NaN ->
  exists u, resolve_unit legend v temporal_agg = inr u.
Proof.
  intros Hf Hu.
  destruct (resolve_unit_block legend v temporal_agg i r Hf Hu) as [_ ->].
  destruct (col_Units <$> filter _ _) as [|u us].
  - by exists (Text "").
  - exists u. unfold Legend.values0. by rewrite getitem_0.
Qed.

(** The scalar unit is read in the first row found for [v], and handed to
    [np.isnan]. *)
Lemma resolve_unit_text legend v temporal_agg i r s :
  list_find (fun r => col_Variable r = Text v) legend = Some (i, r) ->
  col_Units r = Text s ->
  resolve_unit legend v temporal_agg
  = (missing ← lift (np_isnan_text s);
     if (missing : bool) then
       block ← unit_block legend v;
       try_except
         (Legend.values0
            (col_Units <$> filter (fun r => col_Variable r = Text temporal_agg)
                             block))
         IndexError (mret (Text ""))
     else mret (Text s)).
Proof.
  intros [rest Hw]%where_Variable_first Hu.
  unfold resolve_unit. rewrite iloc_where, Hw. simpl. rewrite Hu. simpl.
  reflexivity.
Qed.

End UnitFacts.



(** X14: the unit of the canonical row is handed to [np.isnan] as it is.
    When [np.isnan] raises on that text, as numpy does on a [str], the
    exception leaves the lookup, the iteration for a variable listed under
    that name, and the loop over a dataset that begins with it. *)
Theorem text_unit_exception_leaves_the_loop `{Runtime}
    (legend : list legend_row) (temporal_agg v : string) (i : nat)
    (r : legend_row) (s : string) (e : builtin_exn) (ds : Dataset)
    (rest : list string) :
  list_find (fun r => col_Variable r = Text v) legend = Some (i, r) ->
  col_Units r = Text s ->
  np_isnan_text s = inl e ->
  (ds_data_vars ds).*1 = v :: rest ->
  resolve_unit legend v temporal_agg = raise e
  /\ (forall st, set_variable_attrs legend temporal_agg st v = raise e)
  /\ set_attributes legend temporal_agg ds = raise e.
Proof.
  intros Hf Hu Hnan Hnames.
  assert (resolve_unit legend v temporal_agg = raise e) as Hunit.
  { rewrite (resolve_unit_text legend v temporal_agg i r s Hf Hu), Hnan.
    reflexivity. }
  assert (forall st, set_variable_attrs legend temporal_agg st v = raise e)
    as Hstep.
  { intros st. unfold set_variable_attrs, assign_v.
    rewrite (has_Variable_true legend v i r Hf). simpl.
    unfold variable_attrs. by rewrite Hunit. }
  split; [done|]. split; [done|].
  unfold set_attributes. rewrite Hnames. simpl. by rewrite Hstep.
Qed.

Lemma text_unit_exception_witness :
  resolve_unit legend_scalar_ex "TIMESTAMP" "DD" = raise TypeError
  /\ (forall st,
        set_variable_attrs legend_scalar_ex "DD" st "TIMESTAMP" = raise TypeError)
  /\ set_attributes legend_scalar_ex "DD" (dataset_ex ["TIMESTAMP"; "P_F"])
     = raise TypeError.
Proof.
  apply (text_unit_exception_leaves_the_loop legend_scalar_ex "DD" "TIMESTAMP"
           0
           {| col_Variable := Text "TIMESTAMP";
              col_Description := Text "ISO timestamp";
              col_Units := Text "YYYYMMDDHHMM" |}
           "YYYYMMDDHHMM" TypeError (dataset_ex ["TIMESTAMP"; "P_F"]) ["P_F"]);
    reflexivity.
Defined.

(** X15: the rewrite of a [_CUT_<two digits>] name is not checked against
    the legend.  When neither the column name nor its [_CUT_XX] form is a
    legend entry, the iteration raises [IndexError] at the first lookup of
    line 157, whatever [v] held before. *)
Theorem CUT_name_without_XX_entry_raises_IndexError `{Runtime}
    (legend : list legend_row) (temporal_agg : string) (st : locals)
    (b d : string) :
  isdigit d = true ->
  String.length d = 2%nat ->
  Legend.has_Variable legend (b +:+ "_CUT_" +:+ d) = false ->
  Legend.has_Variable legend (b +:+ "_CUT_XX") = false ->
  set_variable_attrs legend temporal_agg st (b +:+ "_CUT_" +:+ d)
  = raise IndexError.
Proof.
  intros Hd Hlen Hcol Hxx. unfold set_variable_attrs.
  rewrite (assign_v_CUT legend b d (loc_v st) Hd Hlen Hcol). simpl.
  unfold variable_attrs. by rewrite (resolve_unit_unlisted _ _ _ Hxx).
Qed.

Lemma CUT_name_without_XX_entry_witness :
  set_variable_attrs legend_ex "DD"
    {| loc_v := Some "TA_F_MDS"; loc_ds := dataset_ex ["GPP_CUT_50"] |}
    ("GPP" +:+ "_CUT_" +:+ "50")
  = raise IndexError.
Proof.
  apply (CUT_name_without_XX_entry_raises_IndexError legend_ex "DD" _ "GPP" "50");
    reflexivity.
Defined.

(** ** The loop, once more *)

Section LoopFacts.
Context `{Runtime}.

(** The loop returns when each of its iterations does. *)
Lemma for_each_returns {S A : Type} (body : S -> A -> result S) (l : list A) :
  (forall s x, x ∈ l -> exists t, body s x = inr t) ->
  forall s, exists s', for_each body l s = inr s'.
Proof.
  induction l as [|x l IH]; intros Hbody s; simpl.
  - by exists s.
  - destruct (Hbody s x) as [t ->]; [left|]. simpl.
    apply IH. intros s1 y Hy. apply Hbody. by right.
Qed.

(** The iteration for a variable listed under its own name, with no scalar
    unit: [v] becomes that name, and the attributes are those of its row. *)
Lemma set_variable_attrs_listed legend temporal_agg variable i r :
  list_find (fun r => col_Variable r = Text variable) legend = Some (i, r) ->
  col_Units r = NaN ->
  exists u,
    resolve_unit legend variable temporal_agg = inr u
    /\ forall st,
         set_variable_attrs legend temporal_agg st variable
         = inr {| loc_v := Some variable;
                  loc_ds :=
                    set_attrs (loc_ds st) variable
                      [("long_name", ACell (col_Description r));
                       ("units", ACell u);
                       ("_FillValue", AFloat fill_value)] |}.
Proof.
  intros Hf Hu.
  destruct (resolve_unit_NaN_returns legend variable temporal_agg i r Hf Hu)
    as [u Hunit].
  exists u. split; [done|]. intros st.
  unfold set_variable_attrs, assign_v.
  rewrite (has_Variable_true legend variable i r Hf). simpl.
  unfold variable_attrs.
  rewrite Hunit, (description_first legend variable i r Hf). reflexivity.
Qed.

End LoopFacts.

(** X16: an iteration that matches neither branch of lines 151-155 leaves
    [v] as the previous iteration set it.  After an iteration has
    returned, a column that is no legend entry and no [_CUT_<digits>] name,
    and has at least two tokens, does not raise: it is given the
    attributes of the canonical name the previous iteration resolved. *)
Theorem unmatched_variable_takes_previous_attributes `{Runtime}
    (legend : list legend_row) (temporal_agg : string) (st st1 : locals)
    (x y t : string) :
  set_variable_attrs legend temporal_agg st x = inr st1 ->
  Legend.has_Variable legend y = false ->
  getitem (split "_" y) (-2) = inr t ->
  (t = "CUT" ->
   exists d, getitem (split "_" y) (-1) = inr d /\ isdigit d = false) ->
  exists v attrs,
    loc_v st1 = Some v
    /\ variable_attrs legend temporal_agg v = inr attrs
    /\ loc_ds st1 = set_attrs (loc_ds st) x attrs
    /\ set_variable_attrs legend temporal_agg st1 y
       = inr {| loc_v := Some v;
                loc_ds := set_attrs (loc_ds st1) y attrs |}.
Proof.
  intros (v & attrs & Ha & ->)%set_variable_attrs_inr Hnot Ht Hcut.
  exists v, attrs. cbn [loc_v loc_ds]. repeat split; [done|].
  unfold set_variable_attrs, assign_v. cbn [loc_v loc_ds].
  rewrite Hnot. simpl. rewrite Ht. simpl.
  case_bool_decide as Hc; simpl.
  - destruct (Hcut Hc) as (d & Hd & Hdigit). rewrite Hd. simpl.
    rewrite Hdigit. simpl. by rewrite Ha.
  - by rewrite Ha.
Qed.

Lemma unmatched_variable_witness :
  exists v attrs,
    loc_v {| loc_v := Some "TA_F_MDS";
             loc_ds :=
               set_attrs (dataset_ex ["TA_F_MDS"; "FOO_UNKNOWN"]) "TA_F_MDS"
                 [("long_name", ACell (Text "Air temperature"));
                  ("units", ACell (Text "deg C (mean)"));
                  ("_FillValue", AFloat fill_value)] |}
    = Some v
    /\ variable_attrs legend_ex "DD" v = inr attrs
    /\ loc_ds {| loc_v := Some "TA_F_MDS";
                 loc_ds :=
                   set_attrs (dataset_ex ["TA_F_MDS"; "FOO_UNKNOWN"]) "TA_F_MDS"
                     [("long_name", ACell (Text "Air temperature"));
                      ("units", ACell (Text "deg C (mean)"));
                      ("_FillValue", AFloat fill_value)] |}
       = set_attrs
           (loc_ds {| loc_v := None;
                      loc_ds := dataset_ex ["TA_F_MDS"; "FOO_UNKNOWN"] |})
           "TA_F_MDS" attrs
    /\ set_variable_attrs legend_ex "DD"
         {| loc_v := Some "TA_F_MDS";
            loc_ds :=
              set_attrs (dataset_ex ["TA_F_MDS"; "FOO_UNKNOWN"]) "TA_F_MDS"
                [("long_name", ACell (Text "Air temperature"));
                 ("units", ACell (Text "deg C (mean)"));
                 ("_FillValue", AFloat fill_value)] |}
         "FOO_UNKNOWN"
       = inr {| loc_v := Some v;
                loc_ds :=
                  set_attrs
                    (loc_ds
                       {| loc_v := Some "TA_F_MDS";
                          loc_ds :=
                            set_attrs (dataset_ex ["TA_F_MDS"; "FOO_UNKNOWN"])
                              "TA_F_MDS"
                              [("long_name", ACell (Text "Air temperature"));
                               ("units", ACell (Text "deg C (mean)"));
                               ("_FillValue", AFloat fill_value)] |})
                    "FOO_UNKNOWN" attrs |}.
Proof.
  apply (unmatched_variable_takes_previous_attributes legend_ex "DD"
           {| loc_v := None; loc_ds := dataset_ex ["TA_F_MDS"; "FOO_UNKNOWN"] |}
           _ "TA_F_MDS" "FOO_UNKNOWN" "FOO").
  - reflexivity.
  - reflexivity.
  - reflexivity.
  - discriminate.
Defined.

(** X17: when every data variable of the dataset is a legend entry under
    its own name, with no unit in its own row, the loop of lines 150-171
    returns.  The dataset it returns has the same variable names, and each
    variable carries the description of the first legend row of its name,
    the unit the lookup gives for its name, and the fill value. *)
Theorem loop_returns_on_listed_variables `{Runtime}
    (legend : list legend_row) (temporal_agg : string) (ds : Dataset) :
  (forall name, name ∈ (ds_data_vars ds).*1 ->
     exists i r,
       list_find (fun r => col_Variable r = Text name) legend = Some (i, r)
       /\ col_Units r = NaN) ->
  exists ds',
    set_attributes legend temporal_agg ds = inr ds'
    /\ (ds_data_vars ds').*1 = (ds_data_vars ds).*1
    /\ forall name da, (name, da) ∈ ds_data_vars ds' ->
         exists i r u,
           list_find (fun r => col_Variable r = Text name) legend = Some (i, r)
           /\ resolve_unit legend name temporal_agg = inr u
           /\ da_attrs da = [("long_name", ACell (col_Description r));
                             ("units", ACell u);
                             ("_FillValue", AFloat fill_value)].
Proof.
  intros Hlisted.
  destruct (for_each_returns (set_variable_attrs legend temporal_agg)
              (ds_data_vars ds).*1) with (s := {| loc_v := None; loc_ds := ds |})
    as [st Hloop].
  { intros s x (i & r & Hf & Hu)%Hlisted.
    destruct (set_variable_attrs_listed legend temporal_agg x i r Hf Hu)
      as (u & _ & Hstep).
    rewrite Hstep. eauto. }
  assert (set_attributes legend temporal_agg ds = inr (loc_ds st)) as Hset.
  { unfold set_attributes. by rewrite Hloop. }
  exists (loc_ds st). split; [done|].
  pose proof (set_attributes_keeps_names _ _ _ _ Hset) as Hnames.
  split; [done|].
  set (P := fun (done : list string) (st : locals) =>
              (forall x, x ∈ done -> x ∈ (ds_data_vars ds).*1) ->
              forall name da, (name, da) ∈ ds_data_vars (loc_ds st) ->
                name ∈ done ->
                exists i r u,
                  list_find (fun r => col_Variable r = Text name) legend
                  = Some (i, r)
                  /\ resolve_unit legend name temporal_agg = inr u
                  /\ da_attrs da = [("long_name", ACell (col_Description r));
                                    ("units", ACell u);
                                    ("_FillValue", AFloat fill_value)]).
  assert (P (ds_data_vars ds).*1 st) as Hinv.
  { apply (for_each_invariant (set_variable_attrs legend temporal_agg) P
             (ds_data_vars ds).*1 {| loc_v := None; loc_ds := ds |} st);
      [| |exact Hloop]; unfold P.
    - intros _ name da _ Hin. by apply elem_of_nil in Hin.
    - intros done x s t IH Hbody Hsub name da Hin Hname.
      assert (x ∈ (ds_data_vars ds).*1) as Hx.
      { apply Hsub, elem_of_app. right. by apply list_elem_of_singleton. }
      destruct (Hlisted x Hx) as (i & r & Hf & Hu).
      destruct (set_variable_attrs_listed legend temporal_agg x i r Hf Hu)
        as (u & Hunit & Hstep).
      rewrite Hstep in Hbody. injection Hbody as <-. cbn [loc_ds] in Hin.
      apply elem_of_set_attrs in Hin as (da0 & Hin0 & ->).
      destruct (decide (name = x)) as [->|Hne].
      + exists i, r, u. by repeat split.
      + apply (IH (fun z Hz => Hsub z (proj2 (elem_of_app _ _ _) (or_introl Hz)))
                 name da0 Hin0).
        apply elem_of_app in Hname as [Hd|Hs]; [done|].
        by apply list_elem_of_singleton in Hs. }
  intros name da Hin. apply (Hinv (fun x Hx => Hx) name da Hin).
  rewrite <- Hnames. apply list_elem_of_fmap. by exists (name, da).
Qed.

Lemma loop_returns_witness :
  exists ds',
    set_attributes legend_ex "DD" (dataset_ex ["NEE_CUT_XX"; "TA_F_MDS"])
    = inr ds'
    /\ (ds_data_vars ds').*1
       = (ds_data_vars (dataset_ex ["NEE_CUT_XX"; "TA_F_MDS"])).*1
    /\ forall name da, (name, da) ∈ ds_data_vars ds' ->
         exists i r u,
           list_find (fun r => col_Variable r = Text name) legend_ex
           = Some (i, r)
           /\ resolve_unit legend_ex name "DD" = inr u
           /\ da_attrs da = [("long_name", ACell (col_Description r));
                             ("units", ACell u);
                             ("_FillValue", AFloat fill_value)].
Proof.
  apply (loop_returns_on_listed_variables legend_ex "DD"
           (dataset_ex ["NEE_CUT_XX"; "TA_F_MDS"])).
  intros name Hin. simpl in Hin.
  apply elem_of_cons in Hin as [->|Hin];
    [|apply elem_of_cons in Hin as [->|Hin]; [|by apply elem_of_nil in Hin]].
  - exists 3%nat, {| col_Variable := Text "NEE_CUT_XX";
                     col_Description := Text "Net ecosystem exchange, percentile";
                     col_Units := NaN |}.
    split; reflexivity.
  - exists 0%nat, {| col_Variable := Text "TA_F_MDS";
                     col_Description := Text "Air temperature";
                     col_Units := NaN |}.
    split; reflexivity.
Defined.
